(** * mcp-server: the mode-dispatch core of the QuickBooks MCP gateway

    A shallow embedding of [src/mcp-server.ts]: the environment block, the
    handlers registered with the contract backend, [captureExchange], the
    proxy options ([pathRewrite], [proxyReq], [proxyRes], [error]) and the
    mode gates that mount the two middlewares under [/api].

    JavaScript strings are [string], a sequence of 8-bit characters (so
    case mapping is the ASCII one); buffers are lists of bytes; the inbound
    headers are a list of name/value pairs in arrival order, with
    lower-cased names as Node keeps them, the outgoing ones a
    [gmap string string]. The framework layers mounted before the two
    [/api] middlewares (the body parser and the logger) are not part of the
    stack modelled here: a request is taken as they pass it on.  Effects (the capture file, the caller's response, the console,
    thrown errors) go through a small state/exception/trace monad. *)

From Stdlib Require Import ZArith Lia Ascii.
From stdpp Require Import base option list strings gmap pretty.

Local Open Scope Z_scope.
Set Warnings "-register-all".

(** ** JavaScript strings *)

Module Js.

Definition LF : ascii := ascii_of_nat 10.
Definition DQ : ascii := ascii_of_nat 34.
Definition BS : ascii := ascii_of_nat 92.

(** [String.prototype.toLowerCase], on the ASCII letters: the characters
    here are 8-bit, so the case mappings of other scripts are out of
    reach. *)
Definition lower_char (c : ascii) : ascii :=
  let n := nat_of_ascii c in
  if ((65 <=? n) && (n <=? 90))%nat then ascii_of_nat (n + 32) else c.

Fixpoint toLowerCase (s : string) : string :=
  match s with
  | EmptyString => EmptyString
  | String c s' => String (lower_char c) (toLowerCase s')
  end.

(** [a || b] on a value that is a string or [undefined]: the empty string
    is falsy, like [undefined]. *)
Definition or_else (a : option string) (b : string) : string :=
  match a with
  | Some (String c s) => String c s
  | _ => b
  end.

(** Truthiness of an optional string (used by [if (QBO_TOKEN)]). *)
Definition truthy_str (a : option string) : bool :=
  match a with
  | Some (String _ _) => true
  | _ => false
  end.

(** [n || d] on a number that may be [undefined]: [0] is falsy. *)
Definition num_or (n : option Z) (d : Z) : Z :=
  match n with
  | Some v => if v =? 0 then d else v
  | None => d
  end.

Definition truthy_num (n : option Z) : bool :=
  match n with
  | Some v => negb (v =? 0)
  | None => false
  end.

Fixpoint startsWith (p s : string) : bool :=
  match p, s with
  | EmptyString, _ => true
  | String a p', String b s' => if decide (a = b) then startsWith p' s' else false
  | String _ _, EmptyString => false
  end.

Fixpoint drop (n : nat) (s : string) : string :=
  match n, s with
  | O, _ => s
  | S n', String _ s' => drop n' s'
  | S _, EmptyString => EmptyString
  end.

(** [s.includes(p)] *)
Fixpoint includes (p s : string) : bool :=
  startsWith p s ||
  match s with
  | EmptyString => false
  | String _ s' => includes p s'
  end.

(** The host of an absolute URL: what follows [://] up to the path, the
    query or the fragment, lower-cased ([new URL(u).host]). *)
Fixpoint after_scheme (s : string) : string :=
  match s with
  | EmptyString => EmptyString
  | String c s' => if startsWith "://" s then drop 3 s else after_scheme s'
  end.

Fixpoint until_path (s : string) : string :=
  match s with
  | EmptyString => EmptyString
  | String c s' =>
      if decide (c = "/"%char) then EmptyString
      else if decide (c = "?"%char) then EmptyString
      else if decide (c = "#"%char) then EmptyString
      else String c (until_path s')
  end.

Definition url_host (u : string) : string :=
  toLowerCase (until_path (if includes "://" u then after_scheme u else u)).


End Js.

(** ** JSON values and [JSON.stringify] *)

Inductive json : Type :=
| JNull
| JBool (b : bool)
| JNum (n : Z)
| JStr (s : string)
| JArr (items : list json)
| JObj (fields : list (string * json)).

Module JSON.

Definition hex_digit (n : nat) : ascii :=
  match n with
  | 0 => "0" | 1 => "1" | 2 => "2" | 3 => "3" | 4 => "4" | 5 => "5"
  | 6 => "6" | 7 => "7" | 8 => "8" | 9 => "9" | 10 => "a" | 11 => "b"
  | 12 => "c" | 13 => "d" | 14 => "e" | _ => "f"
  end%nat%char.

(** One character inside a quoted JSON string: quote and backslash are
    escaped, control characters become [\b \t \n \f \r] or [\u00XX]. *)
Definition escape_char (c : ascii) : string :=
  let n := nat_of_ascii c in
  let esc (x : ascii) := String Js.BS (String x EmptyString) in
  if decide (n = 34)%nat then esc Js.DQ
  else if decide (n = 92)%nat then esc Js.BS
  else if decide (n = 8)%nat then esc "b"%char
  else if decide (n = 9)%nat then esc "t"%char
  else if decide (n = 10)%nat then esc "n"%char
  else if decide (n = 12)%nat then esc "f"%char
  else if decide (n = 13)%nat then esc "r"%char
  else if (n <? 32)%nat then
    String Js.BS (String "u" (String "0" (String "0"
      (String (hex_digit (n / 16)) (String (hex_digit (n mod 16)) EmptyString)))))
  else String c EmptyString.

Fixpoint escape (s : string) : string :=
  match s with
  | EmptyString => EmptyString
  | String c s' => escape_char c +:+ escape s'
  end.

Definition quote (s : string) : string :=
  String Js.DQ (escape s +:+ String Js.DQ EmptyString).

Definition join_comma (parts : list string) : string :=
  match parts with
  | [] => EmptyString
  | p :: ps => p +:+ foldr (fun q acc => "," +:+ q +:+ acc) EmptyString ps
  end.

Fixpoint stringify (j : json) : string :=
  match j with
  | JNull => "null"
  | JBool true => "true"
  | JBool false => "false"
  | JNum n => pretty n
  | JStr s => quote s
  | JArr items => "[" +:+ join_comma (map stringify items) +:+ "]"
  | JObj fields =>
      "{" +:+ join_comma
                (map (fun kv => quote (fst kv) +:+ ":" +:+ stringify (snd kv)) fields)
          +:+ "}"
  end.

(** Property access [o.k] on a JSON object. *)
Fixpoint field (k : string) (fields : list (string * json)) : option json :=
  match fields with
  | [] => None
  | (k', v) :: rest => if decide (k' = k) then Some v else field k rest
  end.

Definition get (k : string) (j : json) : option json :=
  match j with
  | JObj fields => field k fields
  | _ => None
  end.

End JSON.

(** ** HTTP data *)

Abbreviation Headers := (gmap string string).
Abbreviation Buffer := (list Byte.byte).

(** The inbound request ([express.Request]) as it reaches the stack.
    [originalUrl] is the URL the caller sent; [req.url], which the framework
    rewrites for a mounted middleware, is derived from it (see
    [url_under]). [headers] keeps the arrival order. [body] is what the body
    parser left: [None] when it set none. *)
Record Request := {
  method : string;
  originalUrl : string;
  headers : list (string * string);
  body : option json;
}.

(** The outgoing request to the origin ([http.ClientRequest]). *)
Record ClientRequest := {
  cr_target : string;
  cr_method : string;
  cr_path : string;
  cr_headers : Headers;
}.

(** A complete response of the origin ([http.IncomingMessage]): the status
    line, the headers and the body as the sequence of chunks its stream
    emits before [end]. *)
Record IncomingMessage := {
  statusCode : option Z;
  res_headers : Headers;
  chunks : list Buffer;
}.

Record Error := { message : string }.

(** What the origin does with a request: it answers, or the transport
    fails. *)
Inductive Upstream :=
| UpResponse (proxyRes : IncomingMessage)
| UpError (err : Error).

(** The [res] argument of the proxy [error] hook is a server response or,
    for an upgraded connection, a raw socket. *)
Inductive ResKind := IsServerResponse | IsSocket.

(** ** Effects *)

(** The state a request handler can read or change: the files, whether the
    disk refuses an append (and with which error), the clock, and the two
    flags of the caller's [ServerResponse]. *)
Record World := {
  fs : gmap string string;
  fs_error : option string;
  now : string;
  closed : bool;
  headersSent : bool;
}.

(** The three handlers [startServer] mounts. *)
Inductive Component := Forwarder | Synthesizer | Health.

(** What the server does, in program order: a layer of the stack starts
    handling the request, a request leaves for the origin, a file append,
    writes to the caller's response, console output, the framework's own
    final handler answering, and the proxy library's own relay (it sets
    status and headers on the response, and pipes the origin's body into
    it). *)
Inductive Event :=
| LayerRun (c : Component)
| UpstreamSend (r : ClientRequest)
| FsAppend (path data : string)
| ResWriteHead (status : Z) (hs : Headers)
| ResEnd (data : string)
| ResPipe (data : list Buffer)
| ConsoleError (msg : string)
| ExpressFinal
| LibHead (status : option Z) (hs : Headers)
| LibPipe (data : list Buffer).

Inductive Result (A : Type) :=
| Ok (a : A)
| Throw (e : Error).
Arguments Ok {A} a.
Arguments Throw {A} e.

Definition M (A : Type) : Type := World -> Result A * World * list Event.

#[global] Instance M_ret : MRet M := fun A a w => (Ok a, w, []).

#[global] Instance M_bind : MBind M := fun A B f m w =>
  match m w with
  | (Ok a, w1, t1) =>
      match f a w1 with
      | (r, w2, t2) => (r, w2, t1 ++ t2)
      end
  | (Throw e, w1, t1) => (Throw e, w1, t1)
  end.

Definition result {A} (o : Result A * World * list Event) : Result A := o.1.1.
Definition world {A} (o : Result A * World * list Event) : World := o.1.2.
Definition trace {A} (o : Result A * World * list Event) : list Event := o.2.

Definition throw {A} (msg : string) : M A :=
  fun w => (Throw {| message := msg |}, w, []).

Definition emit (e : Event) : M unit := fun w => (Ok tt, w, [e]).

(** The world after [data] went to the end of the file at [path] (created
    when missing). *)
Definition with_appended (path data : string) (w : World) : World :=
  {| fs := <[path := default "" (fs w !! path) +:+ data]> (fs w);
     fs_error := fs_error w; now := now w;
     closed := closed w; headersSent := headersSent w |}.

(** The world after the head of the caller's response went out. *)
Definition with_head_sent (w : World) : World :=
  {| fs := fs w; fs_error := fs_error w; now := now w;
     closed := closed w; headersSent := true |}.

Module fs_.
(** [fs.appendFileSync(path, data)]: appends, or throws and writes
    nothing. *)
Definition appendFileSync (path data : string) : M unit := fun w =>
  match fs_error w with
  | Some e => (Throw {| message := e |}, w, [])
  | None => (Ok tt, with_appended path data w, [FsAppend path data])
  end.
End fs_.

(** [new Date().toISOString()] *)
Definition Date_toISOString : M string := fun w => (Ok (now w), w, []).

Module res.
(** [res.closed] *)
Definition get_closed : M bool := fun w => (Ok (closed w), w, []).

(** [res.writeHead(status, headers)]; Node throws ERR_HTTP_HEADERS_SENT
    when the head went out before. *)
Definition writeHead (status : Z) (hs : Headers) : M unit := fun w =>
  if headersSent w then (Throw {| message := "ERR_HTTP_HEADERS_SENT" |}, w, [])
  else (Ok tt, with_head_sent w, [ResWriteHead status hs]).

(** [res.end(body)] *)
Definition end_ (data : string) : M unit := emit (ResEnd data).

(** [res.status(s).json(v)] of Express: head with a JSON content type,
    then the serialised value. *)
Definition status_json (status : Z) (v : json) : M unit :=
  writeHead status {[ "Content-Type" := "application/json; charset=utf-8" ]} ;;
  end_ (JSON.stringify v).
End res.

Definition console_error (msg : string) : M unit := emit (ConsoleError msg).

(** ** Environment *)

(** The variables of the process environment that enter request handling.
    [SPEC_PATH] and [PORT], which [startServer] uses to load the contract
    and to listen, are left to the platform: the loaded contract is its. *)
Record Env := {
  MCP_MODE : option string;
  env_QBO_BASE : option string;
  env_QBO_TOKEN : option string;
}.

(** The contract backend's view of one operation and of a request context;
    only what the handlers read. *)
Record Operation := { operationId : option string }.

Record Context := {
  operation : option Operation;
  validation_errors : option (list json);
}.

(** The object [mockResponseForOperation] returns, with the two keys the
    [mock] handler probes with [in]. *)
Record MockResponse := {
  mock_status : option Z;
  mock_body : option json;
}.


(** ** The server *)

(** A handler registered with the contract backend gets the context and
    the framework's request (and response, here the world). *)
Abbreviation Handler := (Context -> Request -> M unit).

(** Everything the server calls that is not its own code: Node's UTF-8
    decoder ([Buffer.prototype.toString("utf8")]); the loaded contract,
    through the three entry points of the contract backend the server
    relies on, namely routing ([None]: no operation for the method and
    path), request validation ([None]: the request is valid, else the list
    of error objects) and example lookup; and the remote origin. *)
Class Platform := {
  toString_utf8 : Buffer -> string;
  matchOperation : Request -> option Operation;
  validateRequest : Request -> Operation -> option (list json);
  mockResponseForOperation : string -> option MockResponse;
  origin : ClientRequest -> Upstream;
}.

Section Server.

Context {P : Platform}.

(** The process environment, read once at start-up. *)
Variable env : Env.

(** *** Environment block *)

Definition MODE : string := Js.toLowerCase (Js.or_else (MCP_MODE env) "mock").

Definition QBO_BASE : string :=
  Js.or_else (env_QBO_BASE env) "https://quickbooks.api.intuit.com".

Definition QBO_TOKEN : option string := env_QBO_TOKEN env.

(** *** Handlers registered with the contract backend *)

Definition notImplemented : Handler := fun c req =>
  res.status_json 501 (JObj [("error", JStr "Not implemented in MCP mock")]).

Definition notFound : Handler := fun c req =>
  res.status_json 404 (JObj [("error", JStr "Path not found in specification")]).

Definition errors_json (errs : option (list json)) : json :=
  match errs with
  | Some l => JArr l
  | None => JNull
  end.

Definition validationFail : Handler := fun c req =>
  res.status_json 400 (JObj [("errors", errors_json (validation_errors c))]).

Definition mock : Handler := fun c req =>
  match operation c with
  | None => throw "TypeError: Cannot read properties of undefined"
  | Some op =>
      let mockResponse := mockResponseForOperation (Js.or_else (operationId op) "") in
      let status :=
        match mockResponse with
        | Some {| mock_status := Some s |} => s
        | _ => 200
        end in
      let body :=
        match mockResponse with
        | Some {| mock_body := Some b |} => b
        | _ => JObj [("error", JStr "Mock body not found")]
        end in
      res.status_json status body
  end.

(** [api.register({ ... })]: the table of handlers by name. *)
Definition handlers : gmap string Handler :=
  <["notImplemented" := notImplemented]>
    (<["notFound" := notFound]>
       (<["validationFail" := validationFail]>
          (<["mock" := mock]> ∅))).

Definition call (name : string) (c : Context) (req : Request) : M unit :=
  match handlers !! name with
  | Some h => h c req
  | None => throw (name +:+ " no handler registered")
  end.

(** [api.handleRequest(req, req, res)] of the contract backend: route;
    without a matching operation the [notFound] handler answers; the
    validator throws on an operation without id; with validation errors the
    [validationFail] handler answers; otherwise the handler registered
    under the operation's id answers, and [notImplemented] when there is
    none. The server does not await the call, so what it throws leaves the
    server. *)
Definition handleRequest (req : Request) : M unit :=
  match matchOperation req with
  | None => call "notFound" {| operation := None; validation_errors := None |} req
  | Some op =>
      match operationId op with
      | None => throw "Unknown operation"
      | Some id =>
          match validateRequest req op with
          | Some errs =>
              call "validationFail"
                   {| operation := Some op; validation_errors := Some errs |} req
          | None =>
              let c := {| operation := Some op; validation_errors := None |} in
              match handlers !! id with
              | Some h => h c req
              | None => call "notImplemented" c req
              end
          end
      end
  end.

(** The request is not routed to an operation without id, the one case in
    which the validator throws. *)
Definition routable (req : Request) : bool :=
  match matchOperation req with
  | Some {| operationId := None |} => false
  | _ => true
  end.

(** *** Capture helper *)

Definition headers_json (hs : list (string * string)) : json :=
  JObj (map (fun kv => (fst kv, JStr (snd kv))) hs).

(** The object [captureExchange] serialises; [JSON.stringify] leaves out
    [req.body] when it is [undefined]. *)
Definition exchange (ts : string) (req : Request) (resBody : string) (status : Z)
  : json :=
  JObj [("ts", JStr ts);
        ("req", JObj ([("method", JStr (method req));
                       ("url", JStr (originalUrl req));
                       ("headers", headers_json (headers req))]
                      ++ match body req with
                         | Some b => [("body", b)]
                         | None => []
                         end));
        ("res", JObj [("status", JNum status); ("body", JStr resBody)])].

Definition captureExchange (req : Request) (resBody : string) (status : Z) : M unit :=
  ts ← Date_toISOString;
  let line := JSON.stringify (exchange ts req resBody status) in
  fs_.appendFileSync "captures.ndjson" (line +:+ String Js.LF EmptyString).

(** *** Proxy options *)

(** [pathStr.replace(/^\/api/, "")] *)
Definition pathRewrite (pathStr : string) : string :=
  if Js.startsWith "/api" pathStr then Js.drop 4 pathStr else pathStr.

(** In capture mode the proxy library leaves the whole response to the
    [proxyRes] hook; in proxy mode it relays the answer itself as well. *)
Definition selfHandleResponse : bool := bool_decide (MODE = "capture").

(** [proxyReq.setHeader(name, value)]: Node keys headers by lower-cased
    name and replaces a value already there. *)
Definition setHeader (name value : string) (r : ClientRequest) : ClientRequest :=
  {| cr_target := cr_target r; cr_method := cr_method r; cr_path := cr_path r;
     cr_headers := <[Js.toLowerCase name := value]> (cr_headers r) |}.

Definition getHeader (name : string) (r : ClientRequest) : option string :=
  cr_headers r !! Js.toLowerCase name.

Definition on_proxyReq (proxyReq : ClientRequest) : ClientRequest :=
  match QBO_TOKEN with
  | Some (String c t) => setHeader "Authorization" ("Bearer " +:+ String c t) proxyReq
  | _ => proxyReq
  end.

(** The listener on [data]: [chunks.push(chunk)]. *)
Definition on_data (acc : list Buffer) (chunk : Buffer) : list Buffer :=
  acc ++ [chunk].

(** The listener on [end]. *)
Definition on_end (proxyRes : IncomingMessage) (req : Request) (acc : list Buffer)
  : M unit :=
  let body := toString_utf8 (concat acc) in
  captureExchange req body (Js.num_or (statusCode proxyRes) 0) ;;
  c ← res.get_closed;
  if negb c then
    res.writeHead (Js.num_or (statusCode proxyRes) 500) (res_headers proxyRes) ;;
    res.end_ body
  else mret tt.

(** The [proxyRes] hook.  In the capture branch the two listeners are
    registered and the origin's stream then emits its chunks and [end]. *)
Definition on_proxyRes (proxyRes : IncomingMessage) (req : Request) : M unit :=
  if bool_decide (MODE = "capture") && Js.truthy_num (statusCode proxyRes) then
    on_end proxyRes req (foldl on_data [] (chunks proxyRes))
  else
    c ← res.get_closed;
    if negb c then
      res.writeHead (Js.num_or (statusCode proxyRes) 500) (res_headers proxyRes) ;;
      emit (ResPipe (chunks proxyRes))
    else mret tt.

(** The [error] hook. *)
Definition on_error (err : Error) (req : Request) (r : ResKind) : M unit :=
  console_error ("Proxy error: " +:+ message err) ;;
  match r with
  | IsServerResponse =>
      c ← res.get_closed;
      if negb c then
        res.writeHead 500 {[ "Content-Type" := "application/json" ]} ;;
        res.end_ (JSON.stringify
                    (JObj [("error", JStr "Proxy error");
                           ("details", JStr (message err))]))
      else mret tt
  | IsSocket => console_error "Proxy error handler could not forward error."
  end.

(** [req.url] as a middleware mounted at [mount] sees it: the framework
    removes the matched mount path from the front and, when what is left
    does not start with a slash, puts one there. [req.originalUrl] stays. *)
Definition url_under (mount : string) (req : Request) : string :=
  let rest := Js.drop (String.length mount) (originalUrl req) in
  if Js.startsWith "/" rest then rest else "/" +:+ rest.

(** The request the proxy middleware sends to the origin for an inbound
    request: the caller's method; [pathRewrite] of the [req.url] it sees
    under its mount [/api]; the caller's headers with [Host] set to the
    target's ([changeOrigin]); then the [proxyReq] hook. *)
Definition upstreamRequest (req : Request) : ClientRequest :=
  on_proxyReq {| cr_target := QBO_BASE; cr_method := method req;
                 cr_path := pathRewrite (url_under "/api" req);
                 cr_headers := <["host" := Js.url_host QBO_BASE]>
                                 (list_to_map (headers req)) |}.

(** The proxy library's own relay of an answer, run after the [proxyRes]
    hook unless [selfHandleResponse] is set: when no head went out it sets
    the origin's status and headers on the response, and it pipes the
    origin's body into the response. *)
Definition library_relay (proxyRes : IncomingMessage) : M unit := fun w =>
  (Ok tt, w,
   (if headersSent w then []
    else [LibHead (statusCode proxyRes) (res_headers proxyRes)])
   ++ [LibPipe (chunks proxyRes)]).

(** Forwarding one request: it goes to the origin; the origin's answer goes
    to the [proxyRes] hook and then, without [selfHandleResponse], to the
    library's relay; a transport failure goes to the [error] hook. *)
Definition forward (req : Request) : M unit :=
  emit (UpstreamSend (upstreamRequest req)) ;;
  match origin (upstreamRequest req) with
  | UpResponse proxyRes =>
      on_proxyRes proxyRes req ;;
      if selfHandleResponse then mret tt else library_relay proxyRes
  | UpError err => on_error err req IsServerResponse
  end.

(** [createProxyMiddleware(proxyOptions)]: without a path filter every
    request is forwarded, and the middleware never calls [next]. *)
Definition proxyMiddleware (req : Request) : M bool :=
  forward req ;; mret false.

(** The second middleware under [/api]; it does not call [next] either. *)
Definition mockMiddleware (req : Request) : M bool :=
  handleRequest req ;; mret false.

Definition healthCheckHandler (req : Request) : M bool :=
  res.status_json 200 (JObj [("ok", JBool true); ("mode", JStr MODE)]) ;;
  mret false.

(** *** The Express application *)

(** The path of a URL: up to the query string. *)
Fixpoint pathname (u : string) : string :=
  match u with
  | EmptyString => EmptyString
  | String c u' => if decide (c = "?"%char) then EmptyString else String c (pathname u')
  end.

(** [app.use(mount, ...)] matches the mount path itself and everything
    below it, case-insensitively. *)
Definition mounted (mount : string) (req : Request) : bool :=
  let p := Js.toLowerCase (pathname (originalUrl req)) in
  bool_decide (p = mount) || Js.startsWith (mount +:+ "/") p.

(** [app.get(path, ...)]: the route also takes [HEAD] when it is declared
    for [GET], and the path with a trailing slash. *)
Definition routed (m path : string) (req : Request) : bool :=
  (bool_decide (method req = m)
   || (bool_decide (m = "GET") && bool_decide (method req = "HEAD")))
  && (bool_decide (Js.toLowerCase (pathname (originalUrl req)) = path)
      || bool_decide (Js.toLowerCase (pathname (originalUrl req)) = path +:+ "/")).

(** A layer of the stack: who it is, which requests it takes, and its
    handler, which returns whether it called [next]. *)
Record Layer := {
  layer_name : Component;
  layer_match : Request -> bool;
  layer_handle : Request -> M bool;
}.

(** The stack [startServer] builds, in mount order, from the first handler
    of its own on: the body parser and the logger mounted before it are the
    framework's, and a request is taken as they pass it on. *)
Definition app : list Layer :=
  (if bool_decide (MODE = "proxy") || bool_decide (MODE = "capture")
   then [ {| layer_name := Forwarder; layer_match := mounted "/api";
             layer_handle := proxyMiddleware |} ]
   else [])
  ++ (if bool_decide (MODE = "mock") || bool_decide (MODE = "capture")
      then [ {| layer_name := Synthesizer; layer_match := mounted "/api";
                layer_handle := mockMiddleware |} ]
      else [])
  ++ [ {| layer_name := Health; layer_match := routed "GET" "/health";
          layer_handle := healthCheckHandler |} ].

(** Express runs the first matching layer and moves on only when that
    layer calls [next]; past the last layer its own final handler
    answers. *)
Fixpoint dispatch (stack : list Layer) (req : Request) : M unit :=
  match stack with
  | [] => emit ExpressFinal
  | l :: rest =>
      if layer_match l req then
        emit (LayerRun (layer_name l)) ;;
        next ← layer_handle l req;
        if (next : bool) then dispatch rest req else mret tt
      else dispatch rest req
  end.

Definition serve (req : Request) : M unit := dispatch app req.

End Server.

(** ** Reading a trace *)

(** The layers that handled the request. *)
Definition invoked (t : list Event) : list Component :=
  omap (fun e => match e with LayerRun c => Some c | _ => None end) t.

(** The bodies handed to [res.end]. *)
Definition relayed (t : list Event) : list string :=
  omap (fun e => match e with ResEnd b => Some b | _ => None end) t.

(** The heads written to the caller. *)
Definition heads (t : list Event) : list (Z * Headers) :=
  omap (fun e => match e with ResWriteHead s h => Some (s, h) | _ => None end) t.

(** The data appended to a file. *)
Definition appended (path : string) (t : list Event) : list string :=
  omap (fun e => match e with
                 | FsAppend p d => if decide (p = path) then Some d else None
                 | _ => None
                 end) t.

(** The contents of the capture log. *)
Definition capture_log (w : World) : string :=
  default "" (fs w !! "captures.ndjson").

(** The server does nothing else than answer with the framework's final
    handler. *)
Definition unhandled (t : list Event) : Prop := t = [ExpressFinal].

(** A computation that starts no layer of the stack. *)
Definition quiet {A} (m : M A) : Prop :=
  forall w, invoked (trace (m w)) = [].

(** The body names the request's path, with or without the routing
    prefix. *)
Definition names_path (req : Request) (b : string) : bool :=
  Js.includes (pathname (originalUrl req)) b
  || Js.includes (pathRewrite (pathname (originalUrl req))) b.

(** The environment with another mode value. *)
Definition with_mode (mode : option string) (env : Env) : Env :=
  {| MCP_MODE := mode; env_QBO_BASE := env_QBO_BASE env;
     env_QBO_TOKEN := env_QBO_TOKEN env |}.

(** What the server's own code writes to the caller's response: heads,
    bodies and piped streams. *)
Definition caller_writes (t : list Event) : list Event :=
  omap (fun e => match e with
                 | ResWriteHead _ _ | ResEnd _ | ResPipe _ => Some e
                 | _ => None
                 end) t.

(** Everything that is written to the caller's response, by the server's
    code or by the proxy library. *)
Definition to_caller (t : list Event) : list Event :=
  omap (fun e => match e with
                 | ResWriteHead _ _ | ResEnd _ | ResPipe _
                 | LibHead _ _ | LibPipe _ => Some e
                 | _ => None
                 end) t.

(** What the server's code prints with [console.error]. *)
Definition console (t : list Event) : list string :=
  omap (fun e => match e with ConsoleError m => Some m | _ => None end) t.

(** The requests that left for the origin. *)
Definition sent_upstream (t : list Event) : list ClientRequest :=
  omap (fun e => match e with UpstreamSend r => Some r | _ => None end) t.

(** Every file append, with its path. *)
Definition file_appends (t : list Event) : list (string * string) :=
  omap (fun e => match e with FsAppend p d => Some (p, d) | _ => None end) t.

(** ** The earlier variant, [src/mcp-server.js]

    Its environment block and [captureExchange] are those above; its
    [onProxyRes] hook only records and leaves the relay to the proxy
    library. *)
Module Legacy.

Section Hooks.

Context {P : Platform}.
Variable env : Env.

(** The listener on [end]: [captureExchange(req, body, proxyRes.statusCode || 0)]. *)
Definition on_end (proxyRes : IncomingMessage) (req : Request) (acc : list Buffer)
  : M unit :=
  captureExchange req (toString_utf8 (concat acc)) (Js.num_or (statusCode proxyRes) 0).

(** [onProxyRes]: [if (MODE !== 'capture') return;] then the two listeners. *)
Definition onProxyRes (proxyRes : IncomingMessage) (req : Request) : M unit :=
  if negb (bool_decide (MODE env = "capture")) then mret tt
  else on_end proxyRes req (foldl on_data [] (chunks proxyRes)).

End Hooks.

End Legacy.

(** ** Concrete inputs *)

Module Sample.

Definition ascii_of_byte (b : Byte.byte) : ascii := ascii_of_nat (N.to_nat (Byte.to_N b)).

(** A decoder for ASCII payloads. *)
Fixpoint decode (b : Buffer) : string :=
  match b with
  | [] => EmptyString
  | x :: b' => String (ascii_of_byte x) (decode b')
  end.

Definition bytes (s : string) : Buffer := String.list_byte_of_string s.

Definition env_of (mode : option string) (token : option string) : Env :=
  {| MCP_MODE := mode; env_QBO_BASE := None; env_QBO_TOKEN := token |}.

Definition get_customer : Request :=
  {| method := "GET"; originalUrl := "/api/v3/company/42/customer";
     headers := [("host", "localhost:4000"); ("authorization", "Bearer caller")];
     body := None |}.

Definition post_invoice : Request :=
  {| method := "POST"; originalUrl := "/api/v3/company/42/invoice";
     headers := [("host", "localhost:4000"); ("content-type", "application/json")];
     body := Some (JObj [("Line", JArr [])]) |}.

(** Two requests under [/api] whose path goes on with [/api]. *)
Definition get_api_api : Request :=
  {| method := "GET"; originalUrl := "/api/api/x";
     headers := [("host", "localhost:4000")]; body := None |}.

Definition get_apiary : Request :=
  {| method := "GET"; originalUrl := "/api/apiary/1";
     headers := [("host", "localhost:4000")]; body := None |}.

Definition customer_op : Operation := {| operationId := Some "getCustomer" |}.

(** A contract with the single operation [GET .../customer]. *)
Definition route (req : Request) : option Operation :=
  if Js.includes "/customer" (originalUrl req) then Some customer_op else None.

Definition required_error : json :=
  JObj [("keyword", JStr "required"); ("instancePath", JStr "/query")].

(** A validator that accepts every request, and one that misses a required
    query parameter in every request. *)
Definition lenient (req : Request) (op : Operation) : option (list json) := None.

Definition strict (req : Request) (op : Operation) : option (list json) :=
  Some [required_error].

(** The query parameters an operation requires, those a request lacks, and
    a validator that stops at the first violated constraint, as a schema
    validator does unless told to collect every error. *)
Definition required_params : list string := ["minorversion"; "requestid"].

Definition lacks (req : Request) (param : string) : bool :=
  negb (Js.includes (param +:+ "=") (originalUrl req)).

Definition violated (req : Request) : list string :=
  List.filter (lacks req) required_params.

Definition missing_error (param : string) : json :=
  JObj [("keyword", JStr "required"); ("instancePath", JStr "/query");
        ("params", JObj [("missingProperty", JStr param)])].

Definition fail_fast (req : Request) (op : Operation) : option (list json) :=
  match violated req with
  | [] => None
  | param :: _ => Some [missing_error param]
  end.

Definition examples (id : string) : option MockResponse :=
  if decide (id = "getCustomer")
  then Some {| mock_status := Some 200; mock_body := Some (JObj [("Customer", JArr [])]) |}
  else None.

Definition ok_response : IncomingMessage :=
  {| statusCode := Some 200;
     res_headers := {[ "content-type" := "application/json" ]};
     chunks := [bytes "[tr"; bytes "ue]"] |}.

Definition origin_ok (r : ClientRequest) : Upstream := UpResponse ok_response.

Definition origin_down (r : ClientRequest) : Upstream :=
  UpError {| message := "connect ECONNREFUSED" |}.

Definition platform (validator : Request -> Operation -> option (list json))
    (orig : ClientRequest -> Upstream) : Platform :=
  {| toString_utf8 := decode; matchOperation := route;
     validateRequest := validator; mockResponseForOperation := examples;
     origin := orig |}.

Definition P_ok : Platform := platform lenient origin_ok.
Definition P_strict : Platform := platform strict origin_ok.
Definition P_down : Platform := platform lenient origin_down.
Definition P_fail_fast : Platform := platform fail_fast origin_ok.

(** A contract whose one operation has the id [mock], the name under which
    the example handler is registered, with a documented example. *)
Definition op_named_mock : Operation := {| operationId := Some "mock" |}.

Definition customers_example : json := JObj [("Customer", JArr [])].

Definition P_named_mock : Platform :=
  {| toString_utf8 := decode;
     matchOperation := fun _ => Some op_named_mock;
     validateRequest := lenient;
     mockResponseForOperation := fun id =>
       if decide (id = "mock")
       then Some {| mock_status := Some 200; mock_body := Some customers_example |}
       else None;
     origin := origin_ok |}.


Definition mock_env : Env := env_of (Some "mock") None.
Definition proxy_env : Env := env_of (Some "PROXY") (Some "s3cret").
Definition capture_env : Env := env_of (Some "capture") (Some "s3cret").
Definition staging_env : Env := env_of (Some "staging") None.

Definition world0 : World :=
  {| fs := ∅; fs_error := None; now := "2025-04-22T19:34:12.345Z";
     closed := false; headersSent := false |}.

Definition world_later : World :=
  {| fs := {[ "captures.ndjson" := "{}" ]}; fs_error := None;
     now := "2025-04-23T08:00:00.000Z"; closed := false; headersSent := false |}.

Definition world_disk_full : World :=
  {| fs := ∅; fs_error := Some "ENOSPC: no space left on device";
     now := "2025-04-22T19:34:12.345Z"; closed := false; headersSent := false |}.

Definition world_caller_gone : World :=
  {| fs := ∅; fs_error := None; now := "2025-04-22T19:34:12.345Z";
     closed := true; headersSent := false |}.

Definition health_check : Request :=
  {| method := "GET"; originalUrl := "/Health?verbose=1";
     headers := []; body := None |}.

Definition outside_api : Request :=
  {| method := "GET"; originalUrl := "/v3/company/42/customer";
     headers := []; body := None |}.

(** An answer of the origin whose status code is missing. *)
Definition no_status_response : IncomingMessage :=
  {| statusCode := None; res_headers := ∅; chunks := [bytes "partial"] |}.

Definition origin_no_status (r : ClientRequest) : Upstream :=
  UpResponse no_status_response.

Definition P_no_status : Platform := platform lenient origin_no_status.

End Sample.

(** ** Strings *)

Lemma append_cons c s t : String c s +:+ t = String c (s +:+ t).
Proof. reflexivity. Qed.

Lemma append_nil s : EmptyString +:+ s = s.
Proof. reflexivity. Qed.


Lemma startsWith_app p s : Js.startsWith p (p +:+ s) = true.
Proof.
  induction p as [|a p IH]; [done|].
  rewrite append_cons. simpl. by rewrite decide_True.
Qed.

Lemma drop_app p s : Js.drop (String.length p) (p +:+ s) = s.
Proof. induction p as [|a p IH]; [done|]. by rewrite append_cons. Qed.

Lemma startsWith_inv p s : Js.startsWith p s = true -> s = p +:+ Js.drop (String.length p) s.
Proof.
  revert s. induction p as [|a p IH]; intros s H; [done|].
  destruct s as [|b s]; [done|]. simpl in H.
  destruct (decide (a = b)) as [->|]; [|done].
  rewrite append_cons. simpl. f_equal. by apply IH.
Qed.

(** ** One line per record: [JSON.stringify] never emits a line feed *)










(** ** The monad, step by step *)

#[local] Arguments JSON.stringify : simpl never.
#[local] Arguments exchange : simpl never.

Ltac unfold_m :=
  unfold console_error, res.end_, res.get_closed, Date_toISOString;
  unfold mbind, M_bind, mret, M_ret, emit, throw;
  cbn beta iota.

Lemma foldl_on_data (acc cs : list Buffer) : foldl on_data acc cs = acc ++ cs.
Proof.
  revert acc. induction cs as [|c cs IH]; intros acc; simpl.
  - by rewrite app_nil_r.
  - rewrite IH. unfold on_data. by rewrite <- app_assoc.
Qed.

Lemma writeHead_fresh status hs w :
  headersSent w = false ->
  res.writeHead status hs w = (Ok tt, with_head_sent w, [ResWriteHead status hs]).
Proof. intros H. unfold res.writeHead. by rewrite H. Qed.

Lemma status_json_fresh status v w :
  headersSent w = false ->
  res.status_json status v w =
    (Ok tt, with_head_sent w,
     [ResWriteHead status {[ "Content-Type" := "application/json; charset=utf-8" ]};
      ResEnd (JSON.stringify v)]).
Proof.
  intros H. unfold res.status_json. unfold_m. by rewrite writeHead_fresh.
Qed.

(** The answer of [res.status(s).json(v)] reads the world only for the
    [headersSent] flag. *)
Lemma status_json_world status v w1 w2 :
  headersSent w1 = headersSent w2 ->
  result (res.status_json status v w1) = result (res.status_json status v w2)
  /\ trace (res.status_json status v w1) = trace (res.status_json status v w2).
Proof.
  intros H. unfold res.status_json, res.writeHead. unfold_m. rewrite H.
  by destruct (headersSent w2).
Qed.

Section Properties.

Context {P : Platform}.
Variable env : Env.

Lemma captureExchange_ok req resBody status w :
  fs_error w = None ->
  captureExchange req resBody status w =
    let line := JSON.stringify (exchange (now w) req resBody status)
                +:+ String Js.LF EmptyString in
    (Ok tt, with_appended "captures.ndjson" line w, [FsAppend "captures.ndjson" line]).
Proof.
  intros H. unfold captureExchange, fs_.appendFileSync. unfold_m. by rewrite H.
Qed.

Lemma captureExchange_fails req resBody status w e :
  fs_error w = Some e ->
  captureExchange req resBody status w = (Throw {| message := e |}, w, []).
Proof.
  intros H. unfold captureExchange, fs_.appendFileSync. unfold_m. by rewrite H.
Qed.

(** The [end] listener when the append goes through. *)
Lemma on_end_ok proxyRes req acc w :
  fs_error w = None ->
  headersSent w = false ->
  on_end proxyRes req acc w =
    let body := toString_utf8 (concat acc) in
    let line := JSON.stringify
                  (exchange (now w) req body (Js.num_or (statusCode proxyRes) 0))
                +:+ String Js.LF EmptyString in
    let w1 := with_appended "captures.ndjson" line w in
    if closed w then (Ok tt, w1, [FsAppend "captures.ndjson" line])
    else (Ok tt, with_head_sent w1,
          [FsAppend "captures.ndjson" line;
           ResWriteHead (Js.num_or (statusCode proxyRes) 500) (res_headers proxyRes);
           ResEnd body]).
Proof.
  intros Hf Hh. unfold on_end. unfold_m. rewrite captureExchange_ok by done.
  cbn zeta. cbn [closed with_appended].
  destruct (closed w); cbn [negb]; [done|].
  rewrite writeHead_fresh by done. done.
Qed.

Lemma app_mock : MODE env = "mock" ->
  app env = [ {| layer_name := Synthesizer; layer_match := mounted "/api";
                 layer_handle := mockMiddleware |};
              {| layer_name := Health; layer_match := routed "GET" "/health";
                 layer_handle := healthCheckHandler env |} ].
Proof. intros H. unfold app. by rewrite H. Qed.

Lemma app_proxy : MODE env = "proxy" ->
  app env = [ {| layer_name := Forwarder; layer_match := mounted "/api";
                 layer_handle := proxyMiddleware env |};
              {| layer_name := Health; layer_match := routed "GET" "/health";
                 layer_handle := healthCheckHandler env |} ].
Proof. intros H. unfold app. by rewrite H. Qed.

Lemma app_capture : MODE env = "capture" ->
  app env = [ {| layer_name := Forwarder; layer_match := mounted "/api";
                 layer_handle := proxyMiddleware env |};
              {| layer_name := Synthesizer; layer_match := mounted "/api";
                 layer_handle := mockMiddleware |};
              {| layer_name := Health; layer_match := routed "GET" "/health";
                 layer_handle := healthCheckHandler env |} ].
Proof. intros H. unfold app. by rewrite H. Qed.

Lemma app_other :
  MODE env <> "mock" -> MODE env <> "proxy" -> MODE env <> "capture" ->
  app env = [ {| layer_name := Health; layer_match := routed "GET" "/health";
                 layer_handle := healthCheckHandler env |} ].
Proof.
  intros H1 H2 H3. unfold app.
  by rewrite !bool_decide_eq_false_2 by done.
Qed.

(** A layer that takes the request and does not call [next] is the only one
    to run. *)
Lemma dispatch_ends l rest req (h : M unit) w :
  layer_match l req = true ->
  layer_handle l req = (h ;; mret false) ->
  dispatch (l :: rest) req w =
    match h w with
    | (r, w1, t) => (r, w1, LayerRun (layer_name l) :: t)
    end.
Proof.
  intros Hm Hh. cbn [dispatch]. rewrite Hm, Hh. unfold_m.
  destruct (h w) as [[[[]|e] w1] t]; cbn; by rewrite ?app_nil_r.
Qed.

Lemma serve_forwarder req w :
  MODE env = "proxy" \/ MODE env = "capture" ->
  mounted "/api" req = true ->
  serve env req w =
    match forward env req w with
    | (r, w1, t) => (r, w1, LayerRun Forwarder :: t)
    end.
Proof.
  intros [H|H] Hm; unfold serve.
  - rewrite app_proxy by done. by rewrite (dispatch_ends _ _ _ (forward env req)).
  - rewrite app_capture by done. by rewrite (dispatch_ends _ _ _ (forward env req)).
Qed.

Lemma serve_synthesizer req w :
  MODE env = "mock" ->
  mounted "/api" req = true ->
  serve env req w =
    match handleRequest req w with
    | (r, w1, t) => (r, w1, LayerRun Synthesizer :: t)
    end.
Proof.
  intros H Hm. unfold serve. rewrite app_mock by done.
  by rewrite (dispatch_ends _ _ _ (handleRequest req)).
Qed.

Lemma mounted_not_health req m :
  mounted "/api" req = true -> routed m "/health" req = false.
Proof.
  unfold mounted, routed. intros H.
  apply andb_false_iff. right. apply orb_false_iff.
  split; apply bool_decide_eq_false_2; intros E; rewrite E in H; done.
Qed.

Lemma serve_unmounted req w :
  MODE env <> "mock" -> MODE env <> "proxy" -> MODE env <> "capture" ->
  mounted "/api" req = true ->
  serve env req w = (Ok tt, w, [ExpressFinal]).
Proof.
  intros H1 H2 H3 Hm. unfold serve. rewrite app_other by done.
  cbn [dispatch layer_match]. by rewrite (mounted_not_health _ _ Hm).
Qed.

Lemma on_proxyRes_capture proxyRes req :
  MODE env = "capture" ->
  Js.truthy_num (statusCode proxyRes) = true ->
  on_proxyRes env proxyRes req = on_end proxyRes req (chunks proxyRes).
Proof.
  intros Hm Hs. unfold on_proxyRes. rewrite Hm, Hs. cbn [andb bool_decide].
  by rewrite foldl_on_data.
Qed.

Lemma forward_response req proxyRes w :
  MODE env = "capture" ->
  origin (upstreamRequest env req) = UpResponse proxyRes ->
  forward env req w =
    match on_proxyRes env proxyRes req w with
    | (r, w1, t) => (r, w1, UpstreamSend (upstreamRequest env req) :: t)
    end.
Proof.
  intros Hm H. unfold forward, selfHandleResponse. rewrite H.
  assert (bool_decide (MODE env = "capture") = true) as -> by by rewrite Hm.
  unfold_m.
  destruct (on_proxyRes env proxyRes req w) as [[[[]|e] w1] t]; cbn;
    by rewrite ?app_nil_r.
Qed.

(** In proxy mode the library's relay follows the hook. *)
Lemma forward_response_relayed req proxyRes w :
  MODE env = "proxy" ->
  origin (upstreamRequest env req) = UpResponse proxyRes ->
  forward env req w =
    match on_proxyRes env proxyRes req w with
    | (Ok _, w1, t) =>
        (Ok tt, w1,
         UpstreamSend (upstreamRequest env req)
         :: t ++ (if headersSent w1 then []
                  else [LibHead (statusCode proxyRes) (res_headers proxyRes)])
              ++ [LibPipe (chunks proxyRes)])
    | (Throw e, w1, t) => (Throw e, w1, UpstreamSend (upstreamRequest env req) :: t)
    end.
Proof.
  intros Hm H. unfold forward, selfHandleResponse, library_relay. rewrite H.
  assert (bool_decide (MODE env = "capture") = false) as -> by by rewrite Hm.
  unfold_m.
  by destruct (on_proxyRes env proxyRes req w) as [[[[]|e] w1] t].
Qed.

Lemma forward_error req err w :
  origin (upstreamRequest env req) = UpError err ->
  forward env req w =
    match on_error err req IsServerResponse w with
    | (r, w1, t) => (r, w1, UpstreamSend (upstreamRequest env req) :: t)
    end.
Proof. intros H. unfold forward. unfold_m. by rewrite H. Qed.

Lemma truthy_num_or n d : Js.truthy_num n = true -> Js.num_or n d = Js.num_or n 0.
Proof. destruct n as [v|]; [|done]. simpl. by destruct (v =? 0). Qed.


(** C10. In capture mode, for an origin response with a truthy status code
    (the append going through, the caller's response still without a head):
    the server's effects after sending the request upstream are, in this
    order, the append of the record to the capture log and then the head
    and the body written to the caller; when the caller's response is
    closed the append is the only effect. *)
Theorem capture_appends_before_relay req proxyRes s w :
  MODE env = "capture" ->
  mounted "/api" req = true ->
  origin (upstreamRequest env req) = UpResponse proxyRes ->
  statusCode proxyRes = Some s ->
  s <> 0 ->
  fs_error w = None ->
  headersSent w = false ->
  let body := toString_utf8 (concat (chunks proxyRes)) in
  let line := JSON.stringify (exchange (now w) req body s)
              +:+ String Js.LF EmptyString in
  trace (serve env req w) =
    [LayerRun Forwarder; UpstreamSend (upstreamRequest env req);
     FsAppend "captures.ndjson" line]
    ++ (if closed w then []
        else [ResWriteHead s (res_headers proxyRes); ResEnd body]).
Proof.
  intros Hm Hmt Ho Hs Hs0 Hf Hh body line.
  assert (Js.truthy_num (statusCode proxyRes) = true) as Ht.
  { rewrite Hs. simpl. by rewrite (proj2 (Z.eqb_neq s 0)). }
  assert (forall d, Js.num_or (statusCode proxyRes) d = s) as Hn.
  { intros d. rewrite Hs. simpl. by rewrite (proj2 (Z.eqb_neq s 0)). }
  rewrite serve_forwarder by auto.
  rewrite (forward_response _ proxyRes) by done.
  rewrite on_proxyRes_capture, on_end_ok by done.
  cbn zeta. rewrite !Hn. by destruct (closed w).
Qed.

(** C4, as the code has it. In capture mode, when the append to the capture
    log throws, the error leaves the [end] listener: after the request went
    upstream the server does nothing more, so nothing is written to the
    caller's response and nothing is printed to the console; the log and
    the rest of the world stay as they were, and the error is not caught
    anywhere in the server. *)
Theorem capture_write_failure_propagates req proxyRes e w :
  MODE env = "capture" ->
  mounted "/api" req = true ->
  origin (upstreamRequest env req) = UpResponse proxyRes ->
  Js.truthy_num (statusCode proxyRes) = true ->
  fs_error w = Some e ->
  let o := serve env req w in
  result o = Throw {| message := e |}
  /\ world o = w
  /\ trace o = [LayerRun Forwarder; UpstreamSend (upstreamRequest env req)]
  /\ to_caller (trace o) = []
  /\ console (trace o) = []
  /\ heads (trace o) = []
  /\ relayed (trace o) = []
  /\ appended "captures.ndjson" (trace o) = [].
Proof.
  intros Hm Hmt Ho Hs Hf o.
  assert (o = (Throw {| message := e |}, w,
               [LayerRun Forwarder; UpstreamSend (upstreamRequest env req)])) as ->.
  { unfold o. rewrite serve_forwarder by auto.
    rewrite (forward_response _ proxyRes) by done.
    rewrite on_proxyRes_capture by done.
    unfold on_end. unfold_m.
    by rewrite (captureExchange_fails _ _ _ _ e). }
  done.
Qed.

(** C5. In proxy and in capture mode, when the transport to the origin fails
    for a request under [/api] whose response is still open and without a
    head, the caller gets status 500 with a JSON content type and the body
    [{"error":"Proxy error","details":<the error's message>}]; the hook
    returns normally, so no error leaves the server. *)
Theorem forwarding_failure_yields_500 req err w :
  MODE env = "proxy" \/ MODE env = "capture" ->
  mounted "/api" req = true ->
  origin (upstreamRequest env req) = UpError err ->
  closed w = false ->
  headersSent w = false ->
  let answer := JObj [("error", JStr "Proxy error"); ("details", JStr (message err))] in
  let o := serve env req w in
  result o = Ok tt
  /\ heads (trace o) = [(500, {[ "Content-Type" := "application/json" ]})]
  /\ relayed (trace o) = [JSON.stringify answer]
  /\ JSON.get "details" answer = Some (JStr (message err)).
Proof.
  intros Hm Hmt Ho Hc Hh answer o.
  assert (o = (Ok tt, with_head_sent w,
               [LayerRun Forwarder; UpstreamSend (upstreamRequest env req);
                ConsoleError ("Proxy error: " +:+ message err);
                ResWriteHead 500 {[ "Content-Type" := "application/json" ]};
                ResEnd (JSON.stringify answer)])) as ->.
  { unfold o. rewrite serve_forwarder by auto.
    rewrite (forward_error _ err) by done.
    unfold on_error. unfold_m. rewrite Hc. cbn [negb].
    by rewrite writeHead_fresh. }
  done.
Qed.

(** X19. For a request under [/api] whose path after the prefix does not
    itself go on with [/api], the request sent to the origin carries the
    inbound URL without the prefix; with a non-empty token configured its
    [Authorization] header is [Bearer <token>] whatever the caller sent,
    while without one the caller's header goes through; its [Host] is the
    target's. In proxy and in capture mode this is the one request the
    server sends. *)
Theorem forwarded_path_and_credential req rest w :
  MODE env = "proxy" \/ MODE env = "capture" ->
  mounted "/api" req = true ->
  originalUrl req = "/api" +:+ rest ->
  Js.startsWith "/" rest = true ->
  Js.startsWith "/api" rest = false ->
  let up := upstreamRequest env req in
  cr_path up = rest
  /\ getHeader "Authorization" up =
       (if Js.truthy_str (QBO_TOKEN env)
        then Some ("Bearer " +:+ default "" (QBO_TOKEN env))
        else (list_to_map (headers req) : gmap string string) !! "authorization")
  /\ getHeader "Host" up = Some (Js.url_host (QBO_BASE env))
  /\ trace (serve env req w) !! 1%nat = Some (UpstreamSend up).
Proof.
  intros Hm Hmt Hu Hs Hn up. split; [|split; [|split]].
  - unfold up, upstreamRequest, on_proxyReq.
    assert (pathRewrite (url_under "/api" req) = rest) as Hp.
    { unfold url_under. rewrite Hu.
      change (String.length "/api") with 4%nat.
      rewrite (drop_app "/api"), Hs. unfold pathRewrite. by rewrite Hn. }
    by destruct (QBO_TOKEN env) as [[|c t]|].
  - unfold up, upstreamRequest, on_proxyReq, getHeader, QBO_TOKEN.
    destruct (env_QBO_TOKEN env) as [[|c t]|]; cbn [Js.truthy_str default];
      cbn [cr_headers]; try by rewrite lookup_insert_ne.
    unfold setHeader. cbn [cr_headers]. apply lookup_insert_eq.
  - unfold up, upstreamRequest, on_proxyReq, getHeader, QBO_TOKEN.
    destruct (env_QBO_TOKEN env) as [[|c t]|]; cbn [cr_headers];
      try apply lookup_insert_eq.
    unfold setHeader. cbn [cr_headers].
    rewrite lookup_insert_ne by done. apply lookup_insert_eq.
  - rewrite serve_forwarder by done. unfold forward. unfold_m.
    destruct (origin (upstreamRequest env req)) as [pr|er].
    + by destruct (on_proxyRes env pr req w) as [[[[]|?] ?] ?];
        cbn; try destruct selfHandleResponse.
    + by destruct (on_error er req IsServerResponse w) as [[[] ?] ?].
Qed.

(** *** Which layers run *)

Lemma invoked_app t1 t2 : invoked (t1 ++ t2) = invoked t1 ++ invoked t2.
Proof. apply omap_app. Qed.

Lemma quiet_ret {A} (a : A) : quiet (mret a).
Proof. by intros w. Qed.

Lemma quiet_bind {A B} (m : M A) (f : A -> M B) :
  quiet m -> (forall a, quiet (f a)) -> quiet (m ≫= f).
Proof.
  intros Hm Hf w. specialize (Hm w). unfold mbind, M_bind.
  destruct (m w) as [[[a|e] w1] t1]; [|done].
  specialize (Hf a w1). destruct (f a w1) as [[r w2] t2].
  unfold trace in *. cbn [snd] in *. by rewrite invoked_app, Hm, Hf.
Qed.

Lemma quiet_throw {A} msg : quiet (@throw A msg).
Proof. by intros w. Qed.

Lemma quiet_writeHead status hs : quiet (res.writeHead status hs).
Proof. intros w. unfold res.writeHead. by destruct (headersSent w). Qed.

Lemma quiet_status_json status v : quiet (res.status_json status v).
Proof.
  apply quiet_bind; [apply quiet_writeHead|]. intros _. by intros w.
Qed.

Lemma quiet_captureExchange req resBody status :
  quiet (captureExchange req resBody status).
Proof.
  intros w. unfold captureExchange, fs_.appendFileSync. unfold_m.
  by destruct (fs_error w).
Qed.

Lemma quiet_relay status hs (last : M unit) :
  quiet last ->
  quiet (c ← res.get_closed; if negb c then res.writeHead status hs ;; last else mret tt).
Proof.
  intros Hl. apply quiet_bind; [by intros w|]. intros [].
  - apply quiet_ret.
  - apply quiet_bind; [apply quiet_writeHead|]. by intros _.
Qed.

Lemma quiet_on_proxyRes proxyRes req : quiet (on_proxyRes env proxyRes req).
Proof.
  unfold on_proxyRes. case_match.
  - apply quiet_bind; [apply quiet_captureExchange|]. intros _.
    apply quiet_relay. by intros w.
  - apply quiet_relay. by intros w.
Qed.

Lemma quiet_on_error err req r : quiet (on_error err req r).
Proof.
  apply quiet_bind; [by intros w|]. intros _. destruct r.
  - apply quiet_relay. by intros w.
  - by intros w.
Qed.

Lemma quiet_forward req : quiet (forward env req).
Proof.
  apply quiet_bind; [by intros w|]. intros _.
  case_match; [|apply quiet_on_error].
  apply quiet_bind; [apply quiet_on_proxyRes|]. intros _.
  destruct (selfHandleResponse env); [apply quiet_ret|].
  intros w. unfold library_relay. by destruct (headersSent w).
Qed.

Lemma handlers_lookup id h :
  handlers !! id = Some h ->
  h = notImplemented \/ h = notFound \/ h = validationFail \/ h = mock.
Proof.
  unfold handlers. intros H.
  repeat (apply lookup_insert_Some in H as [[_ <-]|[_ H]]; [by auto|]).
  by rewrite lookup_empty in H.
Qed.

Lemma handlers_notFound : handlers !! "notFound" = Some notFound.
Proof. unfold handlers. rewrite lookup_insert_ne by done. apply lookup_insert_eq. Qed.

Lemma handlers_validationFail : handlers !! "validationFail" = Some validationFail.
Proof. unfold handlers. rewrite !lookup_insert_ne by done. apply lookup_insert_eq. Qed.

Lemma handlers_notImplemented : handlers !! "notImplemented" = Some notImplemented.
Proof. unfold handlers. by rewrite lookup_insert_eq. Qed.

(** Every registered handler answers with [res.status(..).json(..)] of
    values fixed by the context, or throws on a context without operation. *)
Lemma handler_shape h c :
  h = notImplemented \/ h = notFound \/ h = validationFail \/ h = mock ->
  (exists status v, forall r, h c r = res.status_json status v)
  \/ (exists msg, forall r, h c r = throw msg).
Proof.
  intros [-> | [-> | [-> | ->]]]; try (left; eexists _, _; intros r; reflexivity).
  unfold mock. destruct (operation c).
  - left. eexists _, _. intros r. reflexivity.
  - right. eexists. intros r. reflexivity.
Qed.

Lemma quiet_handler h c req :
  h = notImplemented \/ h = notFound \/ h = validationFail \/ h = mock ->
  quiet (h c req).
Proof.
  intros H. destruct (handler_shape h c H) as [(s & v & E)|(msg & E)]; rewrite E.
  - apply quiet_status_json.
  - apply quiet_throw.
Qed.

Lemma quiet_call name c req : quiet (call name c req).
Proof.
  unfold call. destruct (handlers !! name) as [h|] eqn:E.
  - apply quiet_handler. by apply (handlers_lookup name).
  - apply quiet_throw.
Qed.

Lemma quiet_handleRequest req : quiet (handleRequest req).
Proof.
  unfold handleRequest. destruct (matchOperation req) as [op|]; [|apply quiet_call].
  destruct (operationId op) as [id|]; [|apply quiet_throw].
  destruct (validateRequest req op); [apply quiet_call|].
  destruct (handlers !! id) as [h|] eqn:E; [|apply quiet_call].
  apply quiet_handler. by apply (handlers_lookup id).
Qed.

(** C3, as the code has it. An absent or empty mode value gives mode
    [mock]. Any other value is kept, lower-cased: when it is none of [mock],
    [proxy] and [capture], neither middleware is mounted, and a request
    under [/api] is left to the framework's final handler: no layer runs
    and the world stays as it was. *)
Theorem unrecognised_mode_mounts_nothing req w :
  MODE env <> "mock" -> MODE env <> "proxy" -> MODE env <> "capture" ->
  mounted "/api" req = true ->
  let o := serve env req w in
  unhandled (trace o)
  /\ invoked (trace o) = []
  /\ world o = w
  /\ MODE (with_mode None env) = "mock"
  /\ MODE (with_mode (Some "") env) = "mock".
Proof.
  intros H1 H2 H3 Hm o. unfold o. by rewrite serve_unmounted.
Qed.

Lemma handleRequest_notFound req w :
  matchOperation req = None ->
  headersSent w = false ->
  handleRequest req w =
    (Ok tt, with_head_sent w,
     [ResWriteHead 404 {[ "Content-Type" := "application/json; charset=utf-8" ]};
      ResEnd (JSON.stringify (JObj [("error", JStr "Path not found in specification")]))]).
Proof.
  intros Hr Hh. unfold handleRequest, call. rewrite Hr, handlers_notFound.
  unfold notFound. by rewrite status_json_fresh.
Qed.

Lemma handleRequest_validationFail req op id errs w :
  matchOperation req = Some op ->
  operationId op = Some id ->
  validateRequest req op = Some errs ->
  headersSent w = false ->
  handleRequest req w =
    (Ok tt, with_head_sent w,
     [ResWriteHead 400 {[ "Content-Type" := "application/json; charset=utf-8" ]};
      ResEnd (JSON.stringify (JObj [("errors", JArr errs)]))]).
Proof.
  intros Hr Hid Hv Hh. unfold handleRequest, call.
  rewrite Hr, Hid, Hv, handlers_validationFail.
  unfold validationFail. by rewrite status_json_fresh.
Qed.

(** C7, as the code has it. In mock mode a request under [/api] that
    matches no operation of the contract is answered with status 404 and
    the JSON body [{"error":"Path not found in specification"}], the same
    for every such request. *)
Theorem unmatched_path_yields_404 req w :
  MODE env = "mock" ->
  mounted "/api" req = true ->
  matchOperation req = None ->
  headersSent w = false ->
  let answer := JObj [("error", JStr "Path not found in specification")] in
  let o := serve env req w in
  result o = Ok tt
  /\ heads (trace o) = [(404, {[ "Content-Type" := "application/json; charset=utf-8" ]})]
  /\ relayed (trace o) = [JSON.stringify answer].
Proof.
  intros Hm Hmt Hr Hh answer o. unfold o.
  rewrite serve_synthesizer by done. by rewrite handleRequest_notFound.
Qed.

(** C8, as the code has it. In mock mode a request under [/api] that
    matches an operation and for which the validator reports errors is
    answered with status 400 and the JSON body [{"errors": [...]}] whose
    array is the list the validator reported, unchanged and in order:
    the server adds no entry and drops none. How many entries there are for
    the constraints a request violates is the validator's doing. *)
Theorem validation_failure_yields_400 req op id errs w :
  MODE env = "mock" ->
  mounted "/api" req = true ->
  matchOperation req = Some op ->
  operationId op = Some id ->
  validateRequest req op = Some errs ->
  headersSent w = false ->
  serve env req w =
    (Ok tt, with_head_sent w,
     [LayerRun Synthesizer;
      ResWriteHead 400 {[ "Content-Type" := "application/json; charset=utf-8" ]};
      ResEnd (JSON.stringify (JObj [("errors", JArr errs)]))]).
Proof.
  intros Hm Hmt Hr Hid Hv Hh.
  rewrite serve_synthesizer by done.
  by rewrite (handleRequest_validationFail _ op id errs).
Qed.

(** The answer a valid request gets, by the id of its operation: that of
    the handler registered under the id, which for [mock] is the example
    of the operation with the fallbacks of the [mock] handler; status 501
    and a fixed body when no handler has that name. *)
Lemma handleRequest_valid req op id w :
  matchOperation req = Some op ->
  operationId op = Some id ->
  validateRequest req op = None ->
  headersSent w = false ->
  exists status v,
    handleRequest req w =
      (Ok tt, with_head_sent w,
       [ResWriteHead status {[ "Content-Type" := "application/json; charset=utf-8" ]};
        ResEnd (JSON.stringify v)])
    /\ (status, v) =
       match handlers !! id with
       | Some h =>
           if decide (id = "mock")
           then (default 200 (mockResponseForOperation "mock" ≫= mock_status),
                 default (JObj [("error", JStr "Mock body not found")])
                         (mockResponseForOperation "mock" ≫= mock_body))
           else if decide (id = "notFound")
           then (404, JObj [("error", JStr "Path not found in specification")])
           else if decide (id = "validationFail")
           then (400, JObj [("errors", JNull)])
           else (501, JObj [("error", JStr "Not implemented in MCP mock")])
       | None => (501, JObj [("error", JStr "Not implemented in MCP mock")])
       end.
Proof.
  intros Hr Hid Hv Hh. unfold handleRequest, call. rewrite Hr, Hid, Hv.
  destruct (handlers !! id) as [h|] eqn:E.
  - unfold handlers in E.
    apply lookup_insert_Some in E as [[<- <-]|[N1 E]].
    { eexists _, _. split; [by apply status_json_fresh|done]. }
    apply lookup_insert_Some in E as [[<- <-]|[N2 E]].
    { eexists _, _. split; [by apply status_json_fresh|done]. }
    apply lookup_insert_Some in E as [[<- <-]|[N3 E]].
    { eexists _, _. split; [by apply status_json_fresh|done]. }
    apply lookup_insert_Some in E as [[<- <-]|[N4 E]]; [|by rewrite lookup_empty in E].
    unfold mock. cbn [operation]. rewrite Hid. cbn [Js.or_else].
    eexists _, _. split; [by apply status_json_fresh|].
    rewrite decide_True by done.
    by destruct (mockResponseForOperation "mock") as [[[s|] [b|]]|].
  - rewrite handlers_notImplemented.
    eexists _, _. split; [by apply status_json_fresh|done].
Qed.

(** C9. In mock mode the answer to a valid request under [/api] is a
    function of the matched operation alone: there is one map from
    operations to status and body such that every such request, whatever
    else it carries and whatever the clock, the files and the disk are, is
    answered with exactly the head and the JSON body the map gives for its
    operation. For an operation that reaches the [mock] handler the map
    gives the example the contract backend holds for it, with the handler's
    fallbacks. *)
Theorem mock_mode_is_deterministic :
  MODE env = "mock" ->
  exists synthesize : Operation -> Z * json,
    (forall req op id w,
        mounted "/api" req = true ->
        matchOperation req = Some op ->
        operationId op = Some id ->
        validateRequest req op = None ->
        headersSent w = false ->
        serve env req w =
          (Ok tt, with_head_sent w,
           [LayerRun Synthesizer;
            ResWriteHead (synthesize op).1
              {[ "Content-Type" := "application/json; charset=utf-8" ]};
            ResEnd (JSON.stringify (synthesize op).2)]))
    /\ (forall op,
          operationId op = Some "mock" ->
          synthesize op =
            (default 200 (mockResponseForOperation "mock" ≫= mock_status),
             default (JObj [("error", JStr "Mock body not found")])
                     (mockResponseForOperation "mock" ≫= mock_body))).
Proof.
  intros Hm.
  exists (fun op =>
    match operationId op with
    | Some id =>
        match handlers !! id with
        | Some h =>
            if decide (id = "mock")
            then (default 200 (mockResponseForOperation "mock" ≫= mock_status),
                  default (JObj [("error", JStr "Mock body not found")])
                          (mockResponseForOperation "mock" ≫= mock_body))
            else if decide (id = "notFound")
            then (404, JObj [("error", JStr "Path not found in specification")])
            else if decide (id = "validationFail")
            then (400, JObj [("errors", JNull)])
            else (501, JObj [("error", JStr "Not implemented in MCP mock")])
        | None => (501, JObj [("error", JStr "Not implemented in MCP mock")])
        end
    | None => (501, JObj [("error", JStr "Not implemented in MCP mock")])
    end).
  split.
  - intros req op id w Hmt Hr Hid Hv Hh.
    rewrite serve_synthesizer by done.
    destruct (handleRequest_valid req op id w) as (s & v & E & Ev); [done..|].
    rewrite E, Hid, <- Ev. done.
  - intros op Hid. rewrite Hid.
    assert (handlers !! "mock" = Some mock) as ->.
    { unfold handlers. rewrite !lookup_insert_ne by done. apply lookup_insert_eq. }
    done.
Qed.

End Properties.

(** ** The theorems at concrete inputs *)


(** The caller has gone before the origin's answer is complete: the record
    is appended and nothing else happens. *)
Lemma capture_appends_before_relay_witness :
  trace (serve (P := Sample.P_ok) Sample.capture_env Sample.post_invoice
               Sample.world_caller_gone)
  = [LayerRun Forwarder;
     UpstreamSend (upstreamRequest Sample.capture_env Sample.post_invoice);
     FsAppend "captures.ndjson"
       (JSON.stringify
          (exchange (now Sample.world_caller_gone) Sample.post_invoice "[true]" 200)
        +:+ String Js.LF EmptyString)].
Proof.
  apply (capture_appends_before_relay (P := Sample.P_ok) Sample.capture_env
           Sample.post_invoice Sample.ok_response 200 Sample.world_caller_gone);
    [reflexivity..|lia|reflexivity|reflexivity].
Defined.

(** C4 as the claim states it fails: with the disk full the caller gets
    neither head nor body, although the response is open and the same
    exchange on a healthy disk is relayed; and the failure is not printed
    either, it leaves the server as an error. *)
Lemma write_failure_loses_response :
  let o := serve (P := Sample.P_ok) Sample.capture_env Sample.post_invoice
                 Sample.world_disk_full in
  closed Sample.world_disk_full = false
  /\ to_caller (trace o) = []
  /\ console (trace o) = []
  /\ heads (trace o) = []
  /\ relayed (trace o) = []
  /\ result o = Throw {| message := "ENOSPC: no space left on device" |}
  /\ relayed (trace (serve (P := Sample.P_ok) Sample.capture_env Sample.post_invoice
                           Sample.world0)) = ["[true]"].
Proof. repeat split. Qed.

Lemma capture_write_failure_propagates_witness :
  let o := serve (P := Sample.P_ok) Sample.capture_env Sample.post_invoice
                 Sample.world_disk_full in
  result o = Throw {| message := "ENOSPC: no space left on device" |}
  /\ world o = Sample.world_disk_full.
Proof.
  destruct (capture_write_failure_propagates (P := Sample.P_ok) Sample.capture_env
              Sample.post_invoice Sample.ok_response
              "ENOSPC: no space left on device" Sample.world_disk_full)
    as (Hres & Hw & _); [reflexivity..|].
  split; [exact Hres | exact Hw].
Defined.

(** Proxy mode (configured as [PROXY]), the origin refusing connections. *)
Lemma forwarding_failure_yields_500_witness :
  let o := serve (P := Sample.P_down) Sample.proxy_env Sample.get_customer
                 Sample.world0 in
  result o = Ok tt
  /\ relayed (trace o)
     = [JSON.stringify (JObj [("error", JStr "Proxy error");
                              ("details", JStr "connect ECONNREFUSED")])].
Proof.
  destruct (forwarding_failure_yields_500 (P := Sample.P_down) Sample.proxy_env
              Sample.get_customer {| message := "connect ECONNREFUSED" |}
              Sample.world0)
    as (Hres & _ & Hrel & _); [by left|reflexivity..|].
  split; [exact Hres | exact Hrel].
Defined.

(** The caller's own [Authorization: Bearer caller] is replaced, and its
    [Host] too. *)
Lemma forwarded_path_and_credential_witness :
  let up := upstreamRequest Sample.proxy_env Sample.get_customer in
  (list_to_map (headers Sample.get_customer) : gmap string string) !! "authorization"
  = Some "Bearer caller"
  /\ cr_path up = "/v3/company/42/customer"
  /\ getHeader "Authorization" up = Some "Bearer s3cret"
  /\ getHeader "Host" up = Some "quickbooks.api.intuit.com".
Proof.
  destruct (forwarded_path_and_credential (P := Sample.P_ok) Sample.proxy_env
              Sample.get_customer "/v3/company/42/customer" Sample.world0)
    as (Hp & Ha & Hh & _); [by left|reflexivity..|].
  split; [reflexivity|]. split; [exact Hp|]. split; [exact Ha | exact Hh].
Defined.

(** C6 at the inputs where the code leaves the claim: the framework has
    removed the mount path before [pathRewrite] removes a leading [/api]
    once more, so [/api/api/x] goes upstream as [/x] and [/api/apiary/1] as
    [ary/1], where the claim has [/api/x] and [/apiary/1]. *)
Lemma forwarded_path_strips_twice :
  let sent req :=
    cr_path <$> sent_upstream
      (trace (serve (P := Sample.P_ok) Sample.proxy_env req Sample.world0)) in
  originalUrl Sample.get_api_api = "/api" +:+ "/api/x"
  /\ sent Sample.get_api_api = ["/x"]
  /\ originalUrl Sample.get_apiary = "/api" +:+ "/apiary/1"
  /\ sent Sample.get_apiary = ["ary/1"]
  /\ sent Sample.get_customer = ["/v3/company/42/customer"].
Proof. repeat split. Qed.

(** C3 as the claim states it fails: with the mode set to [staging] a
    request under [/api] reaches no layer, while in mock mode the contract
    handler answers it. *)
Lemma unrecognised_mode_is_not_mock :
  let other := serve (P := Sample.P_ok) Sample.staging_env Sample.get_customer
                     Sample.world0 in
  let as_mock := serve (P := Sample.P_ok) (with_mode (Some "mock") Sample.staging_env)
                       Sample.get_customer Sample.world0 in
  MODE Sample.staging_env = "staging"
  /\ invoked (trace other) = []
  /\ relayed (trace other) = []
  /\ invoked (trace as_mock) = [Synthesizer]
  /\ trace other <> trace as_mock.
Proof. repeat split. intros H. discriminate H. Qed.

Lemma unrecognised_mode_mounts_nothing_witness :
  unhandled (trace (serve (P := Sample.P_ok) Sample.staging_env Sample.get_customer
                          Sample.world0))
  /\ MODE (with_mode None Sample.staging_env) = "mock".
Proof.
  destruct (unrecognised_mode_mounts_nothing (P := Sample.P_ok) Sample.staging_env
              Sample.get_customer Sample.world0)
    as (Hu & _ & _ & Hd & _); [done..|reflexivity|].
  split; [exact Hu | exact Hd].
Defined.

(** C7 as the claim states it fails: the 404 body for the undocumented
    [/api/v3/company/42/invoice] does not contain that path, with or
    without the prefix. *)
Lemma not_found_body_omits_path :
  let o := serve (P := Sample.P_ok) Sample.mock_env Sample.post_invoice Sample.world0 in
  let b := JSON.stringify (JObj [("error", JStr "Path not found in specification")]) in
  matchOperation (Platform := Sample.P_ok) Sample.post_invoice = None
  /\ (heads (trace o)).*1 = [404]
  /\ relayed (trace o) = [b]
  /\ names_path Sample.post_invoice b = false.
Proof. repeat split. Qed.

Lemma unmatched_path_yields_404_witness :
  relayed (trace (serve (P := Sample.P_ok) Sample.mock_env Sample.post_invoice
                        Sample.world0))
  = [JSON.stringify (JObj [("error", JStr "Path not found in specification")])].
Proof.
  destruct (unmatched_path_yields_404 (P := Sample.P_ok) Sample.mock_env
              Sample.post_invoice Sample.world0)
    as (_ & _ & Hrel); [reflexivity..|].
  exact Hrel.
Defined.

(** C8 as the claim states it fails: a request that lacks both required
    query parameters violates two constraints, and with a validator that
    stops at the first one the body has a single entry. *)
Lemma one_entry_for_two_violations :
  let o := serve (P := Sample.P_fail_fast) Sample.mock_env Sample.get_customer
                 Sample.world0 in
  Sample.violated Sample.get_customer = ["minorversion"; "requestid"]
  /\ (heads (trace o)).*1 = [400]
  /\ relayed (trace o)
     = [JSON.stringify (JObj [("errors", JArr [Sample.missing_error "minorversion"])])]
  /\ length [Sample.missing_error "minorversion"]
     <> length (Sample.violated Sample.get_customer).
Proof. repeat split. intros H. discriminate H. Qed.

Lemma validation_failure_yields_400_witness :
  relayed (trace (serve (P := Sample.P_strict) Sample.mock_env Sample.get_customer
                        Sample.world0))
  = [JSON.stringify (JObj [("errors", JArr [Sample.required_error])])].
Proof.
  rewrite (validation_failure_yields_400 (P := Sample.P_strict) Sample.mock_env
             Sample.get_customer Sample.customer_op "getCustomer"
             [Sample.required_error] Sample.world0); reflexivity.
Defined.

(** A contract whose operation reaches the [mock] handler: two different
    requests at two moments get the documented example, status 200. *)
Lemma mock_mode_is_deterministic_witness :
  let answer :=
    [LayerRun Synthesizer;
     ResWriteHead 200 {[ "Content-Type" := "application/json; charset=utf-8" ]};
     ResEnd (JSON.stringify Sample.customers_example)] in
  trace (serve (P := Sample.P_named_mock) Sample.mock_env Sample.get_customer
               Sample.world0) = answer
  /\ trace (serve (P := Sample.P_named_mock) Sample.mock_env Sample.post_invoice
                  Sample.world_later) = answer.
Proof.
  destruct (mock_mode_is_deterministic (P := Sample.P_named_mock) Sample.mock_env)
    as (f & Hserve & Hmock); [reflexivity|].
  split.
  - rewrite (Hserve Sample.get_customer Sample.op_named_mock "mock" Sample.world0)
      by reflexivity.
    rewrite (Hmock Sample.op_named_mock) by reflexivity. reflexivity.
  - rewrite (Hserve Sample.post_invoice Sample.op_named_mock "mock" Sample.world_later)
      by reflexivity.
    rewrite (Hmock Sample.op_named_mock) by reflexivity. reflexivity.
Defined.

(** ** Beyond the mode-dispatch claims *)

Lemma append_empty_r s : s +:+ EmptyString = s.
Proof. induction s as [|c s IH]; [done|]. by rewrite append_cons, IH. Qed.

Section More.

Context {P : Platform}.
Variable env : Env.

(** *** Requests outside [/api] *)

Lemma serve_not_mounted req w :
  mounted "/api" req = false ->
  serve env req w =
    dispatch [ {| layer_name := Health; layer_match := routed "GET" "/health";
                  layer_handle := healthCheckHandler env |} ] req w.
Proof.
  intros Hm. unfold serve, app.
  destruct (bool_decide (MODE env = "proxy") || bool_decide (MODE env = "capture"));
    destruct (bool_decide (MODE env = "mock") || bool_decide (MODE env = "capture"));
    cbn [Datatypes.app dispatch layer_match]; by rewrite ?Hm.
Qed.

Lemma health_not_mounted req :
  Js.toLowerCase (pathname (originalUrl req)) = "/health" ->
  mounted "/api" req = false.
Proof. intros H. unfold mounted. by rewrite H. Qed.

(** X1. [GET /health] is answered in every mode, also with a mode value the
    server does not know: status 200 and the body [{"ok":true,"mode":MODE}],
    by the health handler alone; the path is matched case-insensitively and
    without its query string. *)
Theorem health_answers_in_every_mode req w :
  method req = "GET" ->
  Js.toLowerCase (pathname (originalUrl req)) = "/health" ->
  headersSent w = false ->
  serve env req w =
    (Ok tt, with_head_sent w,
     [LayerRun Health;
      ResWriteHead 200 {[ "Content-Type" := "application/json; charset=utf-8" ]};
      ResEnd (JSON.stringify (JObj [("ok", JBool true); ("mode", JStr (MODE env))]))]).
Proof.
  intros Hg Hp Hh. rewrite serve_not_mounted by by apply health_not_mounted.
  rewrite (dispatch_ends _ _ _
             (res.status_json 200 (JObj [("ok", JBool true); ("mode", JStr (MODE env))])));
    [|cbn [layer_match]; unfold routed; by rewrite Hg, Hp|done].
  by rewrite status_json_fresh.
Qed.

(** X2. A request that is neither under [/api] nor [GET /health] reaches no
    handler in any mode: nothing is sent to the origin, nothing is written
    to a file, and the framework's final handler is all that runs. *)
Theorem outside_api_nothing_runs req w :
  mounted "/api" req = false ->
  routed "GET" "/health" req = false ->
  serve env req w = (Ok tt, w, [ExpressFinal]).
Proof.
  intros Hm Hr. rewrite serve_not_mounted by done.
  cbn [dispatch layer_match]. by rewrite Hr.
Qed.

(** *** Mock mode *)

(** The contract handler ends in one [res.status(..).json(..)], unless the
    request is routed to an operation without id, on which the validator
    throws. *)
Lemma handleRequest_shape req :
  routable req = true ->
  exists status v, forall w, handleRequest req w = res.status_json status v w.
Proof.
  unfold routable, handleRequest, call.
  destruct (matchOperation req) as [[[id|]]|]; [|done|]; intros _.
  - cbn [operationId].
    destruct (validateRequest req {| operationId := Some id |}) as [errs|].
    + rewrite handlers_validationFail. by eexists _, _.
    + destruct (handlers !! id) as [h|] eqn:E.
      * apply handlers_lookup in E as [-> | [-> | [-> | ->]]];
          by eexists _, _.
      * rewrite handlers_notImplemented. by eexists _, _.
  - rewrite handlers_notFound. by eexists _, _.
Qed.

Lemma handleRequest_unroutable req w :
  routable req = false ->
  handleRequest req w = (Throw {| message := "Unknown operation" |}, w, []).
Proof.
  unfold routable, handleRequest.
  by destruct (matchOperation req) as [[[id|]]|].
Qed.


(** X4. Mock mode never contacts the origin and never touches a file:
    whatever the request under [/api] and the state of the world, no
    request is sent upstream, nothing is appended anywhere, and the files
    are as before. *)
Theorem mock_mode_stays_local req w :
  MODE env = "mock" ->
  mounted "/api" req = true ->
  let o := serve env req w in
  sent_upstream (trace o) = []
  /\ file_appends (trace o) = []
  /\ fs (world o) = fs w.
Proof.
  intros Hm Hmt o. unfold o. rewrite serve_synthesizer by done.
  destruct (routable req) eqn:Hr; [|by rewrite handleRequest_unroutable].
  destruct (handleRequest_shape req Hr) as (s & v & E). rewrite E.
  unfold res.status_json, res.writeHead. unfold_m.
  by destruct (headersSent w).
Qed.

(** X5. In mock mode a valid request for an operation whose id is not the
    name of a registered handler is answered with status 501 and
    [{"error":"Not implemented in MCP mock"}]: the contract backend looks
    the handler up under the operation's id, so the handler registered as
    [mock] is not the one that answers. *)
Theorem unregistered_operation_yields_501 req op id w :
  MODE env = "mock" ->
  mounted "/api" req = true ->
  matchOperation req = Some op ->
  validateRequest req op = None ->
  operationId op = Some id ->
  id <> "notImplemented" -> id <> "notFound" ->
  id <> "validationFail" -> id <> "mock" ->
  headersSent w = false ->
  let o := serve env req w in
  result o = Ok tt
  /\ heads (trace o) = [(501, {[ "Content-Type" := "application/json; charset=utf-8" ]})]
  /\ relayed (trace o)
     = [JSON.stringify (JObj [("error", JStr "Not implemented in MCP mock")])].
Proof.
  intros Hm Hmt Hr Hv Hid N1 N2 N3 N4 Hh o. unfold o.
  rewrite serve_synthesizer by done.
  unfold handleRequest, call. rewrite Hr, Hid, Hv.
  assert (handlers !! id = None) as ->.
  { unfold handlers. rewrite !lookup_insert_ne by done. apply lookup_empty. }
  rewrite handlers_notImplemented. unfold notImplemented.
  by rewrite status_json_fresh.
Qed.

(** X6. The [mock] handler falls back field by field: without an example,
    or with one that lacks a status or a body, it answers with status 200
    and with [{"error":"Mock body not found"}] respectively; an operation
    without id is looked up under the empty string; it does not throw. *)
Theorem mock_handler_falls_back c op req w :
  operation c = Some op ->
  headersSent w = false ->
  let found := mockResponseForOperation (Js.or_else (operationId op) "") in
  let o := mock c req w in
  result o = Ok tt
  /\ heads (trace o)
     = [(default 200 (found ≫= mock_status),
         {[ "Content-Type" := "application/json; charset=utf-8" ]})]
  /\ relayed (trace o)
     = [JSON.stringify
          (default (JObj [("error", JStr "Mock body not found")])
                   (found ≫= mock_body))].
Proof.
  intros Hc Hh found o. unfold o, mock. rewrite Hc.
  rewrite status_json_fresh by done. fold found.
  by destruct found as [[[s|] [b|]]|].
Qed.

(** *** Proxy and capture mode *)

Ltac run_hooks :=
  unfold selfHandleResponse, library_relay, on_proxyRes, on_end, on_error,
    captureExchange, fs_.appendFileSync, res.writeHead;
  unfold_m.

Lemma on_proxyRes_stream proxyRes req w :
  bool_decide (MODE env = "capture") && Js.truthy_num (statusCode proxyRes) = false ->
  closed w = false ->
  headersSent w = false ->
  on_proxyRes env proxyRes req w =
    (Ok tt, with_head_sent w,
     [ResWriteHead (Js.num_or (statusCode proxyRes) 500) (res_headers proxyRes);
      ResPipe (chunks proxyRes)]).
Proof.
  intros Hb Hc Hh. unfold on_proxyRes. rewrite Hb. unfold_m. rewrite Hc.
  cbn [negb]. by rewrite writeHead_fresh.
Qed.

(** X7. In proxy mode the origin's answer reaches an open response twice
    over: the [proxyRes] hook writes the head, with the origin's status
    code (500 when it has none) and headers as they are, and pipes the
    body; then the proxy library, which is not told to leave the response
    alone, pipes the same body into the response once more. *)
Theorem proxy_mode_streams req proxyRes w :
  MODE env = "proxy" ->
  mounted "/api" req = true ->
  origin (upstreamRequest env req) = UpResponse proxyRes ->
  closed w = false ->
  headersSent w = false ->
  serve env req w =
    (Ok tt, with_head_sent w,
     [LayerRun Forwarder; UpstreamSend (upstreamRequest env req);
      ResWriteHead (Js.num_or (statusCode proxyRes) 500) (res_headers proxyRes);
      ResPipe (chunks proxyRes);
      LibPipe (chunks proxyRes)]).
Proof.
  intros Hm Hmt Ho Hc Hh. rewrite serve_forwarder by auto.
  rewrite (forward_response_relayed _ _ proxyRes) by done.
  rewrite on_proxyRes_stream; [done| |done|done]. by rewrite Hm.
Qed.

(** X8. In capture mode an answer of the origin without a status code is
    not recorded: it takes the streaming branch, goes to the caller with
    status 500, and nothing is appended to the capture log. *)
Theorem capture_skips_answer_without_status req proxyRes w :
  MODE env = "capture" ->
  mounted "/api" req = true ->
  origin (upstreamRequest env req) = UpResponse proxyRes ->
  Js.truthy_num (statusCode proxyRes) = false ->
  closed w = false ->
  headersSent w = false ->
  let o := serve env req w in
  file_appends (trace o) = []
  /\ fs (world o) = fs w
  /\ caller_writes (trace o)
     = [ResWriteHead 500 (res_headers proxyRes); ResPipe (chunks proxyRes)].
Proof.
  intros Hm Hmt Ho Hs Hc Hh o. unfold o. rewrite serve_forwarder by auto.
  rewrite (forward_response _ _ proxyRes) by done.
  rewrite on_proxyRes_stream; [| by rewrite Hs, andb_false_r |done|done].
  assert (Js.num_or (statusCode proxyRes) 500 = 500) as ->.
  { destruct (statusCode proxyRes) as [v|]; [|done]. simpl in *.
    by destruct (v =? 0). }
  done.
Qed.

(** X9. Proxy mode never records: whatever the origin does and whatever the
    state of the caller's response, nothing is appended to any file and
    the files are as before. *)
Theorem proxy_mode_never_records req w :
  MODE env = "proxy" ->
  mounted "/api" req = true ->
  let o := serve env req w in
  file_appends (trace o) = [] /\ fs (world o) = fs w.
Proof.
  intros Hm Hmt o. unfold o. rewrite serve_forwarder by auto.
  unfold forward. unfold_m.
  destruct (origin (upstreamRequest env req)) as [pr|er]; run_hooks.
  - assert (bool_decide (MODE env = "capture") = false) as -> by by rewrite Hm.
    cbn. destruct (closed w); cbn; by destruct (headersSent w).
  - cbn. destruct (closed w); cbn; by destruct (headersSent w).
Qed.

(** X10. Once the caller's response is closed the forwarder writes nothing
    to it, in proxy and in capture mode, whether the origin answered or
    the transport failed: no head, no body, no piped stream. *)
Theorem closed_response_gets_nothing req w :
  MODE env = "proxy" \/ MODE env = "capture" ->
  mounted "/api" req = true ->
  closed w = true ->
  caller_writes (trace (serve env req w)) = [].
Proof.
  intros Hm Hmt Hc. rewrite serve_forwarder by done.
  unfold forward. unfold_m.
  destruct (origin (upstreamRequest env req)) as [pr|er]; run_hooks.
  - destruct (bool_decide (MODE env = "capture")); cbn;
      [destruct (Js.truthy_num (statusCode pr)); cbn; [destruct (fs_error w); cbn|]|];
      rewrite ?Hc; cbn; try done.
    by destruct (headersSent w).
  - cbn. by rewrite Hc.
Qed.

(** What one request can do to the files: nothing, or one record at the end
    of the capture log. *)
Lemma forward_files req w :
  fs (world (forward env req w)) = fs w
  \/ exists j,
       fs (world (forward env req w))
       = <["captures.ndjson" :=
             capture_log w +:+ JSON.stringify j +:+ String Js.LF EmptyString]> (fs w).
Proof.
  unfold forward. unfold_m.
  destruct (origin (upstreamRequest env req)) as [pr|er]; run_hooks.
  - destruct (bool_decide (MODE env = "capture")); cbn;
      [destruct (Js.truthy_num (statusCode pr)); cbn|].
    + destruct (fs_error w); [by left|]. right. eexists.
      cbn. destruct (closed w); cbn; by destruct (headersSent w).
    + left. destruct (closed w); cbn; by destruct (headersSent w).
    + left. destruct (closed w); cbn; by destruct (headersSent w).
  - left. cbn. destruct (closed w); cbn; by destruct (headersSent w).
Qed.

(** X11. Whatever the mode and the request, serving it leaves every file
    other than the capture log as it was, and the capture log either as it
    was or longer by exactly one line: a serialised record and a line feed,
    after everything the log held before. *)
Theorem capture_log_is_append_only req w :
  let o := serve env req w in
  exists added,
    capture_log (world o) = capture_log w +:+ added
    /\ (added = EmptyString
        \/ exists j, added = JSON.stringify j +:+ String Js.LF EmptyString)
    /\ delete "captures.ndjson" (fs (world o)) = delete "captures.ndjson" (fs w).
Proof.
  intros o.
  assert (fs (world o) = fs w
          \/ exists j, fs (world o)
                = <["captures.ndjson" :=
                      capture_log w +:+ JSON.stringify j +:+ String Js.LF EmptyString]>
                    (fs w)) as [E|[j E]].
  { unfold o. destruct (mounted "/api" req) eqn:Hmt.
    - destruct (decide (MODE env = "mock")) as [Hm|Hm];
        [|destruct (decide (MODE env = "proxy")) as [Hp|Hp];
          [|destruct (decide (MODE env = "capture")) as [Hc|Hc]]].
      + left. rewrite serve_synthesizer by done.
        destruct (routable req) eqn:Hr; [|by rewrite handleRequest_unroutable].
        destruct (handleRequest_shape req Hr) as (s & v & E). rewrite E.
        unfold res.status_json, res.writeHead. unfold_m.
        by destruct (headersSent w).
      + rewrite serve_forwarder by auto.
        destruct (forward_files req w) as [E|[j E]]; [left|right; exists j];
          by destruct (forward env req w) as [[? ?] ?].
      + rewrite serve_forwarder by auto.
        destruct (forward_files req w) as [E|[j E]]; [left|right; exists j];
          by destruct (forward env req w) as [[? ?] ?].
      + left. by rewrite serve_unmounted.
    - left. rewrite serve_not_mounted by done.
      cbn [dispatch layer_match layer_handle layer_name].
      destruct (routed "GET" "/health" req); [|done].
      unfold healthCheckHandler, res.status_json, res.writeHead. unfold_m.
      by destruct (headersSent w). }
  - exists EmptyString. unfold capture_log. rewrite E, append_empty_r. auto.
  - exists (JSON.stringify j +:+ String Js.LF EmptyString).
    unfold capture_log at 1. rewrite E, lookup_insert_eq, delete_insert_eq.
    split; [done|]. split; [|done]. right. by exists j.
Qed.

(** X12. The [proxyReq] hook changes the [Authorization] header and nothing
    else: every other header, the method, the path and the target of the
    outgoing request are as the proxy library prepared them, with or
    without a token. *)
Theorem proxyReq_hook_leaves_the_rest (r : ClientRequest) (name : string) :
  Js.toLowerCase name <> "authorization" ->
  getHeader name (on_proxyReq env r) = getHeader name r
  /\ cr_method (on_proxyReq env r) = cr_method r
  /\ cr_path (on_proxyReq env r) = cr_path r
  /\ cr_target (on_proxyReq env r) = cr_target r.
Proof.
  intros Hn. unfold on_proxyReq.
  destruct (QBO_TOKEN env) as [[|c t]|]; try done.
  unfold getHeader, setHeader. cbn [cr_headers cr_method cr_path cr_target].
  by rewrite lookup_insert_ne.
Qed.

(** X13. The old hook of [mcp-server.js] and the [proxyRes] hook record
    alike: in capture mode, for an answer with a status code, both append
    the same data to the same file and leave the same files, whatever the
    state of the disk and of the caller's response; and the old hook writes
    nothing to the caller. *)
Theorem old_hook_records_alike proxyRes req w :
  MODE env = "capture" ->
  Js.truthy_num (statusCode proxyRes) = true ->
  let old := Legacy.onProxyRes env proxyRes req w in
  let new := on_proxyRes env proxyRes req w in
  file_appends (trace old) = file_appends (trace new)
  /\ fs (world old) = fs (world new)
  /\ caller_writes (trace old) = [].
Proof.
  intros Hm Hs old new. unfold old, new, Legacy.onProxyRes, Legacy.on_end.
  rewrite on_proxyRes_capture by done.
  assert (bool_decide (MODE env = "capture") = true) as -> by by rewrite Hm.
  cbn [negb]. rewrite foldl_on_data. run_hooks. cbn.
  destruct (fs_error w); [done|]. cbn.
  destruct (closed w); cbn; by destruct (headersSent w).
Qed.

End More.

(** *** What the server depends on *)

(** X15. Proxy and capture mode do not consult the contract: with the same
    origin and the same decoder, a request under [/api] is served alike
    whatever routing, validation and examples the loaded contract gives. No
    request is validated before it is forwarded. *)
Theorem forwarding_ignores_the_contract (P1 P2 : Platform) (env : Env) req w :
  MODE env = "proxy" \/ MODE env = "capture" ->
  mounted "/api" req = true ->
  @toString_utf8 P1 = @toString_utf8 P2 ->
  @origin P1 = @origin P2 ->
  serve (P := P1) env req w = serve (P := P2) env req w.
Proof.
  intros Hm Hmt Hd Ho. rewrite !serve_forwarder by done.
  assert (forward (P := P1) env req w = forward (P := P2) env req w) as ->; [|done].
  unfold forward, on_proxyRes, on_end. by rewrite Hd, Ho.
Qed.

Section Further.

Context {P : Platform}.
Variable env : Env.

(** X16. A failed exchange is not captured: when the transport to the
    origin fails, in capture as in proxy mode, nothing is appended to the
    capture log or any other file, whatever the state of the caller's
    response. *)
Theorem failed_exchange_is_not_recorded req err w :
  MODE env = "proxy" \/ MODE env = "capture" ->
  mounted "/api" req = true ->
  origin (upstreamRequest env req) = UpError err ->
  let o := serve env req w in
  file_appends (trace o) = [] /\ fs (world o) = fs w.
Proof.
  intros Hm Hmt Ho o. unfold o. rewrite serve_forwarder by done.
  rewrite (forward_error _ _ err) by done.
  unfold on_error, res.writeHead. unfold_m. cbn.
  destruct (closed w); cbn; by destruct (headersSent w).
Qed.

(** X17. No request is handled twice: in every mode, known or not, and for
    every path, at most one layer of the stack runs. *)
Theorem at_most_one_layer_runs req w :
  (length (invoked (trace (serve env req w))) <= 1)%nat.
Proof.
  assert (forall (m : M unit) c w0, quiet m ->
            invoked (trace (let '(r, w1, t) := m w0 in (r, w1, LayerRun c :: t))) = [c])
    as Hone.
  { intros m c w0 Hq. specialize (Hq w0). destruct (m w0) as [[r w1] t].
    unfold trace in *. cbn [snd] in *.
    change (invoked (LayerRun c :: t)) with (c :: invoked t). by rewrite Hq. }
  destruct (mounted "/api" req) eqn:Hmt.
  - destruct (decide (MODE env = "mock")) as [Hm|Hm];
      [|destruct (decide (MODE env = "proxy")) as [Hp|Hp];
        [|destruct (decide (MODE env = "capture")) as [Hc|Hc]]].
    + rewrite serve_synthesizer by done.
      by rewrite (Hone (handleRequest req)) by apply quiet_handleRequest.
    + rewrite serve_forwarder by auto.
      by rewrite (Hone (forward env req)) by apply quiet_forward.
    + rewrite serve_forwarder by auto.
      by rewrite (Hone (forward env req)) by apply quiet_forward.
    + rewrite serve_unmounted by done. cbn. lia.
  - rewrite serve_not_mounted by done.
    destruct (routed "GET" "/health" req) eqn:Hr.
    + rewrite (dispatch_ends _ _ _
                 (res.status_json 200
                    (JObj [("ok", JBool true); ("mode", JStr (MODE env))])))
        by done.
      by rewrite (Hone (res.status_json _ _)) by apply quiet_status_json.
    + cbn [dispatch layer_match]. rewrite Hr. cbn. lia.
Qed.

(** X18. The two variants differ on an answer without a status code: in
    capture mode the old hook of [mcp-server.js] records it, with status 0,
    while the [proxyRes] hook appends nothing. *)
Theorem old_hook_records_missing_status proxyRes req w :
  MODE env = "capture" ->
  Js.truthy_num (statusCode proxyRes) = false ->
  fs_error w = None ->
  let body := toString_utf8 (concat (chunks proxyRes)) in
  file_appends (trace (Legacy.onProxyRes env proxyRes req w))
  = [("captures.ndjson",
      JSON.stringify (exchange (now w) req body 0) +:+ String Js.LF EmptyString)]
  /\ file_appends (trace (on_proxyRes env proxyRes req w)) = [].
Proof.
  intros Hm Hs Hf body.
  assert (bool_decide (MODE env = "capture") = true) as Hb by by rewrite Hm.
  assert (Js.num_or (statusCode proxyRes) 0 = 0) as Hn.
  { destruct (statusCode proxyRes) as [v|]; [|done]. simpl in *.
    by destruct (v =? 0). }
  split.
  - unfold Legacy.onProxyRes, Legacy.on_end. rewrite Hb. cbn [negb].
    rewrite foldl_on_data, Hn. by rewrite captureExchange_ok.
  - unfold on_proxyRes, res.writeHead. rewrite Hb, Hs. unfold_m. cbn.
    destruct (closed w); cbn; by destruct (headersSent w).
Qed.

End Further.

Section Dispatch.

Context {P : Platform}.
Variable env : Env.



End Dispatch.

(** ** The further theorems at concrete inputs *)

(** [GET /Health?verbose=1] with the mode set to [staging]. *)
Lemma health_answers_in_every_mode_witness :
  relayed (trace (serve (P := Sample.P_ok) Sample.staging_env Sample.health_check
                        Sample.world0))
  = [JSON.stringify (JObj [("ok", JBool true); ("mode", JStr "staging")])].
Proof.
  rewrite (health_answers_in_every_mode (P := Sample.P_ok) Sample.staging_env
             Sample.health_check Sample.world0); reflexivity.
Defined.

Lemma outside_api_nothing_runs_witness :
  serve (P := Sample.P_ok) Sample.capture_env Sample.outside_api Sample.world0
  = (Ok tt, Sample.world0, [ExpressFinal]).
Proof.
  apply (outside_api_nothing_runs (P := Sample.P_ok) Sample.capture_env
           Sample.outside_api Sample.world0); reflexivity.
Defined.


Lemma mock_mode_stays_local_witness :
  sent_upstream (trace (serve (P := Sample.P_ok) Sample.mock_env Sample.get_customer
                              Sample.world_disk_full)) = [].
Proof.
  destruct (mock_mode_stays_local (P := Sample.P_ok) Sample.mock_env
              Sample.get_customer Sample.world_disk_full) as (Hup & _);
    [reflexivity..|].
  exact Hup.
Defined.

(** The documented [getCustomer] operation, a valid request. *)
Lemma unregistered_operation_yields_501_witness :
  (heads (trace (serve (P := Sample.P_ok) Sample.mock_env Sample.get_customer
                       Sample.world0))).*1 = [501].
Proof.
  destruct (unregistered_operation_yields_501 (P := Sample.P_ok) Sample.mock_env
              Sample.get_customer Sample.customer_op "getCustomer" Sample.world0)
    as (_ & Hh & _); [reflexivity..|done|done|done|done|reflexivity|].
  by rewrite Hh.
Defined.

(** An operation without id: the example is looked up under the empty
    string and not found. *)
Lemma mock_handler_falls_back_witness :
  let c := {| operation := Some {| operationId := None |}; validation_errors := None |} in
  let o := mock (P := Sample.P_ok) c Sample.get_customer Sample.world0 in
  (heads (trace o)).*1 = [200]
  /\ relayed (trace o)
     = [JSON.stringify (JObj [("error", JStr "Mock body not found")])].
Proof.
  destruct (mock_handler_falls_back (P := Sample.P_ok)
              {| operation := Some {| operationId := None |}; validation_errors := None |}
              {| operationId := None |} Sample.get_customer Sample.world0)
    as (_ & Hh & Hb); [reflexivity..|].
  split; [by rewrite Hh | exact Hb].
Defined.

Lemma proxy_mode_streams_witness :
  to_caller (trace (serve (P := Sample.P_ok) Sample.proxy_env Sample.get_customer
                          Sample.world0))
  = [ResWriteHead 200 (res_headers Sample.ok_response);
     ResPipe (chunks Sample.ok_response);
     LibPipe (chunks Sample.ok_response)].
Proof.
  rewrite (proxy_mode_streams (P := Sample.P_ok) Sample.proxy_env Sample.get_customer
             Sample.ok_response Sample.world0); reflexivity.
Defined.

Lemma capture_skips_answer_without_status_witness :
  let o := serve (P := Sample.P_no_status) Sample.capture_env Sample.post_invoice
                 Sample.world0 in
  file_appends (trace o) = [] /\ fs (world o) = fs Sample.world0.
Proof.
  destruct (capture_skips_answer_without_status (P := Sample.P_no_status)
              Sample.capture_env Sample.post_invoice Sample.no_status_response
              Sample.world0) as (Ha & Hf & _); [reflexivity..|].
  split; [exact Ha | exact Hf].
Defined.

Lemma proxy_mode_never_records_witness :
  fs (world (serve (P := Sample.P_ok) Sample.proxy_env Sample.get_customer
                   Sample.world_later))
  = fs Sample.world_later.
Proof.
  destruct (proxy_mode_never_records (P := Sample.P_ok) Sample.proxy_env
              Sample.get_customer Sample.world_later) as (_ & Hf); [reflexivity..|].
  exact Hf.
Defined.

(** The caller has gone and the origin is down. *)
Lemma closed_response_gets_nothing_witness :
  caller_writes (trace (serve (P := Sample.P_down) Sample.capture_env
                              Sample.post_invoice Sample.world_caller_gone)) = [].
Proof.
  apply (closed_response_gets_nothing (P := Sample.P_down) Sample.capture_env
           Sample.post_invoice Sample.world_caller_gone);
    [by right|reflexivity|reflexivity].
Defined.

(** The caller's [content-type] passes the hook, token or not. *)
Lemma proxyReq_hook_leaves_the_rest_witness :
  let r := {| cr_target := QBO_BASE Sample.capture_env; cr_method := "POST";
              cr_path := "/v3/company/42/invoice";
              cr_headers := list_to_map (headers Sample.post_invoice) |} in
  getHeader "Content-Type" (on_proxyReq Sample.capture_env r)
  = Some "application/json".
Proof.
  intros r.
  destruct (proxyReq_hook_leaves_the_rest Sample.capture_env r "Content-Type")
    as (Hh & _); [done|].
  rewrite Hh. reflexivity.
Defined.

Lemma old_hook_records_alike_witness :
  file_appends (trace (Legacy.onProxyRes (P := Sample.P_ok) Sample.capture_env
                         Sample.ok_response Sample.post_invoice Sample.world_later))
  = file_appends (trace (on_proxyRes (P := Sample.P_ok) Sample.capture_env
                           Sample.ok_response Sample.post_invoice Sample.world_later)).
Proof.
  destruct (old_hook_records_alike (P := Sample.P_ok) Sample.capture_env
              Sample.ok_response Sample.post_invoice Sample.world_later)
    as (Ha & _); [reflexivity..|].
  exact Ha.
Defined.

(** A contract that accepts the request and one that rejects it. *)
Lemma forwarding_ignores_the_contract_witness :
  serve (P := Sample.P_ok) Sample.proxy_env Sample.get_customer Sample.world0
  = serve (P := Sample.P_strict) Sample.proxy_env Sample.get_customer Sample.world0.
Proof.
  apply (forwarding_ignores_the_contract Sample.P_ok Sample.P_strict Sample.proxy_env
           Sample.get_customer Sample.world0); [by left|reflexivity..].
Defined.

Lemma failed_exchange_is_not_recorded_witness :
  file_appends (trace (serve (P := Sample.P_down) Sample.capture_env
                             Sample.post_invoice Sample.world0)) = [].
Proof.
  destruct (failed_exchange_is_not_recorded (P := Sample.P_down) Sample.capture_env
              Sample.post_invoice {| message := "connect ECONNREFUSED" |}
              Sample.world0) as (Ha & _); [by right|reflexivity..|].
  exact Ha.
Defined.

Lemma old_hook_records_missing_status_witness :
  file_appends (trace (on_proxyRes (P := Sample.P_no_status) Sample.capture_env
                         Sample.no_status_response Sample.post_invoice Sample.world0))
  = []
  /\ length (file_appends
               (trace (Legacy.onProxyRes (P := Sample.P_no_status) Sample.capture_env
                         Sample.no_status_response Sample.post_invoice Sample.world0)))
     = 1%nat.
Proof.
  destruct (old_hook_records_missing_status (P := Sample.P_no_status)
              Sample.capture_env Sample.no_status_response Sample.post_invoice
              Sample.world0) as (Hold & Hnew); [reflexivity..|].
  split; [exact Hnew | by rewrite Hold].
Defined.

